(** * The client-auth-server Signer of zksync-sso

    A shallow embedding of [packages/sdk/src/client-auth-server/Signer.ts]:
    the account / session state machine, the handshake, chain switching and
    the local-versus-remote request dispatch.

    The Signer mutates two persisted cells and one instance field, calls
    its listeners and collaborators, and throws.  All of that is threaded
    through one monad [M]: a computation takes the [World] (persisted
    storage, the [walletClient] field, the trace of observable calls) and
    gives back an [Outcome] together with the world it leaves behind; an
    exception keeps every write made before it was thrown.

    What is taken for granted: [await] is plain sequencing (a single call
    runs to completion before the next one is looked at, as in the
    single-threaded setting the Signer is written for); the update
    listener's callbacks, [console.error] and the storage cells do not
    throw; chain ids are integers.  The communicator, the two providers,
    [hexToNumber] and the session client may throw or reject, and each is
    an arbitrary function of what it is given. *)

From Stdlib Require Import Ascii.
From stdpp Require Import base option list gmap strings pretty.

Open Scope string_scope.
Open Scope list_scope.
Open Scope Z_scope.

(** ** Data model *)

Definition Address := string.
Definition Hash := string.
Definition Hex := string.

(** Payloads the Signer only passes along (session configuration,
    transaction parameters, remote error objects) are kept as opaque
    serialised text. *)
Definition Json := string.

(** viem's [Chain]; the Signer only ever looks at [id]. *)
Record Chain := {
  chain_id : Z;
  chain_name : string;
}.

Record Session := {
  session_sessionKey : Hash;
  session_sessionConfig : Json;
}.

(** [type Account].  [account_address] is [None] for an object that has no
    [address] property: the type rules it out, but [switchChain] spreads
    [this.account!] and so builds such an object when no account is set. *)
Record Account := {
  account_address : option Address;
  account_activeChainId : Z;
  account_session : option Session;
}.

(** One entry of [ChainsInfo]: the chain id, the contract addresses by name
    and the capabilities by name. *)
Record ChainInfo := {
  chainInfo_id : Z;
  chainInfo_contracts : gmap string Address;
  chainInfo_capabilities : gmap string Json;
}.

Definition ChainsInfo := list ChainInfo.

Record AppMetadata := {
  metadata_name : string;
  metadata_icon : option string;
}.

Definition SessionPreferences := Json.

Inductive Transport :=
| http
| customTransport (name : string).

(** Modelled from the spec: [createZksyncSessionClient] and the client type
    it returns live in [../client/index.js], outside the sources at hand.
    The factory takes the account address, the session key and
    configuration, the chain's contract set, the chain and a transport, and
    produces a client; the client is represented by what it was built
    from.  What the client answers to a call is left to the
    [Environment] below. *)
Record ZksyncSsoSessionClient := {
  client_address : option Address;
  client_sessionKey : Hash;
  client_sessionConfig : Json;
  client_contracts : gmap string Address;
  client_chain : Chain;
  client_transport : Transport;
}.

Definition createZksyncSessionClient (parameters : ZksyncSsoSessionClient)
  : ZksyncSsoSessionClient := parameters.

(** ** RPC messages *)

(** The two schemas [sendRpcRequest] is instantiated at. *)
Inductive Schema := AuthServerRpcSchema | RpcSchema.

(** The one [AuthServerRpcSchema] request the Signer sends. *)
Inductive AuthRequest :=
| eth_requestAccounts (metadata : AppMetadata)
                      (sessionPreferences : option SessionPreferences).

(** [chainId] of [wallet_switchEthereumChain]: a number or a hex string. *)
Inductive ChainIdParam :=
| chainId_number (n : Z)
| chainId_string (hex : Hex).

(** [RequestArguments<TMethod>], by method; the cases are those of the
    [switch] in [tryLocalHandling], [other_method] being its [default]. *)
Inductive RpcRequest :=
| eth_estimateGas (params : Json)
| eth_sendTransaction (transactionRequest : Json)
| wallet_switchEthereumChain (chainId : ChainIdParam)
| wallet_getCapabilities
| eth_accounts
| other_method (method : string) (params : Json).

(** The result of [eth_requestAccounts]. *)
Record HandshakeAccount := {
  handshake_address : Address;
  handshake_activeChainId : option Z;
  handshake_session : option Session;
}.

Record HandshakeData := {
  handshake_account : HandshakeAccount;
  handshake_chainsInfo : ChainsInfo;
}.

(** Values a [RpcSchema] request resolves with. *)
Inductive RpcValue :=
| null
| addresses_value (addresses : list (option Address))
| capabilities_value (chainId : Z) (capabilities : gmap string Json)
| json_value (payload : Json).

Definition RequestArguments (s : Schema) : Type :=
  match s with
  | AuthServerRpcSchema => AuthRequest
  | RpcSchema => RpcRequest
  end.

Definition ExtractReturnType (s : Schema) : Type :=
  match s with
  | AuthServerRpcSchema => HandshakeData
  | RpcSchema => RpcValue
  end.

(** [{ id, content: { action, chainId } }] *)
Record RPCRequestMessage (s : Schema) := {
  request_id : string;
  request_action : RequestArguments s;
  request_chainId : Z;
}.
Arguments request_id {s} _.
Arguments request_action {s} _.
Arguments request_chainId {s} _.

(** [{ id, content }] where [content] has a [result] or an [error]
    property; [None] is the absent property. *)
Record RPCResponseMessage (s : Schema) := {
  response_id : string;
  response_result : option (ExtractReturnType s);
  response_error : option Json;
}.
Arguments response_id {s} _.
Arguments response_result {s} _.
Arguments response_error {s} _.

(** ** Exceptions and outcomes *)

Inductive Exception :=
| Error (message : string)      (* [throw new Error(message)] *)
| TypeError (message : string)  (* raised by the runtime *)
| Thrown (payload : Json).      (* any other thrown or rejected value *)

Inductive Outcome (A : Type) :=
| Ret (a : A)
| Throw (e : Exception).
Arguments Ret {A} a.
Arguments Throw {A} e.

(** ** The world a Signer runs in *)

(** Calls that leave the Signer, in the order they are made. *)
Inductive Event :=
| onAccountsUpdate (addresses : list (option Address))
| onChainUpdate (chainId : Z)
| console_error (message : string)
| storage_write (key : string)
| communicator_ready
| communicator_post (s : Schema) (message : RPCRequestMessage s)
| client_request (client : ZksyncSsoSessionClient) (method : string) (params : Json)
| client_sendTransaction (client : ZksyncSsoSessionClient) (transactionRequest : Json).

Record World := {
  storage_account : option Account;   (* the slot behind [_account] *)
  storage_chainsInfo : ChainsInfo;    (* the slot behind [_chainsInfo] *)
  walletClient : option ZksyncSsoSessionClient;
  trace : list Event;
  uuids : nat;                        (* [crypto.randomUUID] calls so far *)
}.

Definition M (A : Type) : Type := World → Outcome A * World.

#[export] Instance M_ret : MRet M := λ A a w, (Ret a, w).

#[export] Instance M_bind : MBind M := λ A B f m w,
  match m w with
  | (Ret a, w') => f a w'
  | (Throw e, w') => (Throw e, w')
  end.

#[export] Instance M_throw : MThrow Exception M := λ A e w, (Throw e, w).

(** [try { body } catch (error) { handler }] *)
Definition try_catch {A} (body : M A) (handler : Exception → M A) : M A :=
  λ w, match body w with
       | (Ret a, w') => (Ret a, w')
       | (Throw e, w') => handler e w'
       end.

(** Reading a field or a getter. *)
Definition reads {A} (f : World → A) : M A := λ w, (Ret (f w), w).

(** The elementary changes of the world. *)
Definition log (ev : Event) (w : World) : World :=
  {| storage_account := storage_account w;
     storage_chainsInfo := storage_chainsInfo w;
     walletClient := walletClient w;
     trace := trace w ++ [ev];
     uuids := uuids w |}.

Definition with_walletClient (c : option ZksyncSsoSessionClient) (w : World) : World :=
  {| storage_account := storage_account w;
     storage_chainsInfo := storage_chainsInfo w;
     walletClient := c;
     trace := trace w;
     uuids := uuids w |}.

Definition write_account (v : option Account) (w : World) : World :=
  {| storage_account := v;
     storage_chainsInfo := storage_chainsInfo w;
     walletClient := walletClient w;
     trace := trace w;
     uuids := uuids w |}.

Definition write_chainsInfo (v : ChainsInfo) (w : World) : World :=
  {| storage_account := storage_account w;
     storage_chainsInfo := v;
     walletClient := walletClient w;
     trace := trace w;
     uuids := uuids w |}.

Definition count_uuid (w : World) : World :=
  {| storage_account := storage_account w;
     storage_chainsInfo := storage_chainsInfo w;
     walletClient := walletClient w;
     trace := trace w;
     uuids := S (uuids w) |}.

Definition modify (f : World → World) : M unit := λ w, (Ret (), f w).

(** A call into a listener or a collaborator: the call is recorded, then
    its outcome becomes ours. *)
Definition emit (ev : Event) : M unit := modify (log ev).

Definition call {A} (ev : Event) (answer : Outcome A) : M A :=
  emit ev;; λ w, (answer, w).

Definition set_walletClient (c : option ZksyncSsoSessionClient) : M unit :=
  modify (with_walletClient c).

(** JavaScript's [a || b] on an optional number: [undefined] and [0] are
    falsy. *)
Definition js_or (a : option Z) (b : Z) : Z :=
  match a with
  | Some n => if n =? 0 then b else n
  | None => b
  end.

(** ** Persistent state cells *)

(** Modelled from the spec: [StorageItem] comes from [../utils/storage.js],
    which is not among the sources.  It is a scoped, durable slot holding
    one typed value: [get() -> T], [set(T)] and [remove()], which resets
    the slot to the configured default; it is built from a scope-qualified
    key, a default value and an optional on-change callback that runs
    synchronously after every [set] / [remove] with the new value, and sees
    exactly what [get()] returns from then on. *)
Record StorageSlot (T : Type) := {
  slot_key : string;
  slot_read : World → T;
  slot_write : T → World → World;
}.
Arguments slot_key {T} _.
Arguments slot_read {T} _.
Arguments slot_write {T} _.

Record StorageItem (T : Type) := {
  item_slot : StorageSlot T;
  item_defaultValue : T;
  item_onChange : option (T → M unit);
}.
Arguments item_slot {T} _.
Arguments item_defaultValue {T} _.
Arguments item_onChange {T} _.

(** Modelled from the spec: the scope of [StorageItem.scopedStorageKey] is
    fixed for a page, so the name alone tells the two slots apart. *)
Definition scopedStorageKey (name : string) : string := name.

Definition account_slot : StorageSlot (option Account) :=
  {| slot_key := scopedStorageKey "account";
     slot_read := storage_account;
     slot_write := write_account |}.

Definition chainsInfo_slot : StorageSlot ChainsInfo :=
  {| slot_key := scopedStorageKey "chainsInfo";
     slot_read := storage_chainsInfo;
     slot_write := write_chainsInfo |}.

(** [get()] has no use for the callback and reads the slot. *)
Definition slot_get {T} (slot : StorageSlot T) : World → T := slot_read slot.

Definition StorageItem_get {T} (item : StorageItem T) : M T :=
  reads (slot_get (item_slot item)).

Definition notify {T} (item : StorageItem T) (newValue : T) : M unit :=
  match item_onChange item with
  | Some onChange => onChange newValue
  | None => mret ()
  end.

Definition StorageItem_set {T} (item : StorageItem T) (value : T) : M unit :=
  modify (slot_write (item_slot item) value);;
  emit (storage_write (slot_key (item_slot item)));;
  notify item value.

Definition StorageItem_remove {T} (item : StorageItem T) : M unit :=
  StorageItem_set item (item_defaultValue item).

(** ** The Signer *)

Record Communicator := {
  ready : Outcome unit;
  postRequestAndWaitForResponse :
    ∀ s : Schema, RPCRequestMessage s → Outcome (RPCResponseMessage s);
}.

(** [SignerConstructorParams].  The providers are thunks in the source; a
    thunk that throws or rejects is a [Throw] here.  [updateListener] has
    no field: its two callbacks are the [onAccountsUpdate] and
    [onChainUpdate] events of the trace. *)
Record SignerConstructorParams := {
  params_metadata : Outcome AppMetadata;
  params_communicator : Communicator;
  params_chains : list Chain;
  params_transports : option (gmap Z Transport);
  params_session : option (Outcome SessionPreferences);
}.

(** The readonly fields of a constructed Signer.  The constructor refuses
    an empty chain list, so [this.chains] is kept as its first chain and
    the others: that is what [this.chains[0]!] relies on. *)
Record Signer := {
  getMetadata : Outcome AppMetadata;
  communicator : Communicator;
  firstChain : Chain;
  otherChains : list Chain;
  transports : gmap Z Transport;
  sessionParameters : option (Outcome SessionPreferences);
}.

Definition chains (this : Signer) : list Chain :=
  firstChain this :: otherChains this.

(** [this.chains.find((e) => e.id === chainId)] *)
Definition find_chain (this : Signer) (chainId : Z) : option Chain :=
  find (λ e, chain_id e =? chainId) (chains this).

(** [this.chainsInfo.find((e) => e.id === chainId)] *)
Definition find_chainInfo (chainsInfo : ChainsInfo) (chainId : Z) : option ChainInfo :=
  find (λ e, chainInfo_id e =? chainId) chainsInfo.

(** [private get account()] *)
Definition account (this : Signer) (w : World) : option Account :=
  match slot_get account_slot w with
  | None => None
  | Some account =>
      let chain := find_chain this (account_activeChainId account) in
      Some {| account_address := account_address account;
              account_activeChainId :=
                js_or (chain_id <$> chain) (chain_id (firstChain this));
              account_session := account_session account |}
  end.

(** [private get session()] *)
Definition session (this : Signer) (w : World) : option Session :=
  account this w ≫= account_session.

(** [private get chainsInfo()] *)
Definition chainsInfo (this : Signer) (w : World) : ChainsInfo :=
  slot_get chainsInfo_slot w.

(** [public get accounts()] *)
Definition accounts (this : Signer) (w : World) : list (option Address) :=
  match account this w with
  | Some account => [account_address account]
  | None => []
  end.

(** [public get chain()].  The non-null assertion on the [find] is
    justified by [chain_is_found] below; the default is never used. *)
Definition chain (this : Signer) (w : World) : Chain :=
  let chainId :=
    js_or (account_activeChainId <$> account this w) (chain_id (firstChain this)) in
  default (firstChain this) (find_chain this chainId).

(** [createWalletClient()] *)
Definition createWalletClient (this : Signer) : M unit :=
  session ← reads (session this);
  chain ← reads (chain this);
  chainsInfo ← reads (chainsInfo this);
  let chainInfo := find_chainInfo chainsInfo (chain_id chain) in
  account ← reads (account this);
  match account with
  | None => mthrow (Error "Account is not set")
  | Some account =>
  match chainInfo with
  | None =>
      mthrow (Error "Chain info for [object Object] wasn't set during handshake")
  | Some chainInfo =>
  match session with
  | Some session =>
      set_walletClient (Some (createZksyncSessionClient
        {| client_address := account_address account;
           client_sessionKey := session_sessionKey session;
           client_sessionConfig := session_sessionConfig session;
           client_contracts := chainInfo_contracts chainInfo;
           client_chain := chain;
           client_transport := default http (transports this !! chain_id chain) |}))
  | None => set_walletClient None
  end end end.

(** The [onChange] callback the constructor gives the account cell. *)
Definition account_onChange (this : Signer) (newValue : option Account) : M unit :=
  match newValue with
  | Some newValue =>
      emit (onAccountsUpdate [account_address newValue]);;
      emit (onChainUpdate (account_activeChainId newValue));;
      createWalletClient this
  | None => emit (onAccountsUpdate [])
  end.

Definition _account (this : Signer) : StorageItem (option Account) :=
  {| item_slot := account_slot;
     item_defaultValue := None;
     item_onChange := Some (account_onChange this) |}.

Definition _chainsInfo : StorageItem ChainsInfo :=
  {| item_slot := chainsInfo_slot;
     item_defaultValue := [];
     item_onChange := None |}.

Definition clearState (this : Signer) : M unit :=
  StorageItem_remove (_account this);;
  StorageItem_remove _chainsInfo.

(** The field assignments of the constructor, for a chain list already
    known to be [chain0 :: others]. *)
Definition assign_fields (params : SignerConstructorParams)
    (chain0 : Chain) (others : list Chain) : Signer :=
  {| getMetadata := params_metadata params;
     communicator := params_communicator params;
     firstChain := chain0;
     otherChains := others;
     transports := default ∅ (params_transports params);
     sessionParameters := params_session params |}.

Definition constructor (params : SignerConstructorParams) : M Signer :=
  match params_chains params with
  | [] => mthrow (Error "At least one chain must be included in the config")
  | chain0 :: others =>
      let this := assign_fields params chain0 others in
      set_walletClient None;;   (* a new instance has no wallet client *)
      try_catch
        (account ← reads (account this);
         if account is Some _ then createWalletClient this else mret ())
        (λ error,
           emit (console_error "Failed to create wallet client");;
           emit (console_error "Logging out to prevent crash loop");;
           clearState this);;
      mret this
  end.

(** [getClient(parameters?)]; the argument is [parameters?.chainId]. *)
Definition getClient (this : Signer) (parameters : option Z) : M ZksyncSsoSessionClient :=
  active ← reads (chain this);
  let chainId := js_or parameters (chain_id active) in
  match find_chain this chainId with
  | None =>
      mthrow (Error ("Chain with id " +:+ pretty chainId +:+ " is not supported"))
  | Some chain =>
      walletClient ← reads walletClient;
      match walletClient with
      | None => mthrow (Error "Wallet client is not created")
      | Some walletClient => mret walletClient
      end
  end.

(** ** Handshake, chain switching and request dispatch *)

(** What the Signer calls but does not own: [crypto.randomUUID] (the n-th
    call gives [randomUUID n]), viem's [hexToNumber], which throws on text
    that is no hex number, and the two entry points of a session client. *)
Record Environment := {
  randomUUID : nat → string;
  hexToNumber : Hex → Outcome Z;
  walletClient_request : ZksyncSsoSessionClient → string → Json → Outcome Json;
  walletClient_sendTransaction : ZksyncSsoSessionClient → Json → Outcome Json;
}.

Section SignerModel.

Variable env : Environment.

Definition next_uuid : M string :=
  id ← reads (λ w, randomUUID env (uuids w));
  modify count_uuid;;
  mret id.

(** [private createRequestMessage(content)], with [content] given as its
    [action] and [chainId]. *)
Definition createRequestMessage (s : Schema) (action : RequestArguments s)
    (chainId : Z) : M (RPCRequestMessage s) :=
  id ← next_uuid;
  mret {| request_id := id; request_action := action; request_chainId := chainId |}.

(** [private async sendRpcRequest(request)] *)
Definition sendRpcRequest (this : Signer) (s : Schema)
    (request : RequestArguments s) : M (RPCResponseMessage s) :=
  call communicator_ready (ready (communicator this));;
  active ← reads (chain this);
  message ← createRequestMessage s request (chain_id active);
  response ← call (communicator_post s message)
                  (postRequestAndWaitForResponse (communicator this) s message);
  match response_error response with
  | Some error => mthrow (Thrown error)
  | None => mret response
  end.

(** [async handshake()].  [content.result!] of a response that carries no
    result is [undefined], and reading [chainsInfo] off it is a TypeError. *)
Definition handshake (this : Signer) : M (list (option Address)) :=
  metadata ← try_catch
    (λ w, (getMetadata this, w))
    (λ error,
       emit (console_error "Failed to get website metadata. Proceeding with default one.");;
       mret {| metadata_name := "Unknown DApp"; metadata_icon := None |});
  sessionPreferences ←
    match sessionParameters this with
    | Some provider =>
        try_catch
          (preferences ← (λ w, (provider, w)); mret (Some preferences))
          (λ error,
             emit (console_error "Failed to get session data. Proceeding connection with no session.");;
             mret None)
    | None => mret None
    end;
  responseMessage ← sendRpcRequest this AuthServerRpcSchema
                      (eth_requestAccounts metadata sessionPreferences);
  match @response_result AuthServerRpcSchema responseMessage with
  | None => mthrow (TypeError "Cannot read properties of undefined (reading 'chainsInfo')")
  | Some handshakeData =>
      StorageItem_set _chainsInfo (handshake_chainsInfo handshakeData);;
      active ← reads (chain this);
      StorageItem_set (_account this)
        (Some {| account_address :=
                   Some (handshake_address (handshake_account handshakeData));
                 account_activeChainId :=
                   js_or (handshake_activeChainId (handshake_account handshakeData))
                         (chain_id active);
                 account_session :=
                   handshake_session (handshake_account handshakeData) |});;
      reads (accounts this)
  end.

(** [{ ...this.account!, activeChainId }]: spreading [null] adds nothing. *)
Definition spread_account (account : option Account) (activeChainId : Z) : Account :=
  {| account_address := account ≫= account_address;
     account_activeChainId := activeChainId;
     account_session := account ≫= account_session |}.

(** [switchChain(chainId)] *)
Definition switchChain (this : Signer) (chainId : Z) : M bool :=
  let chain' := find_chain this chainId in
  chainsInfo ← reads (chainsInfo this);
  let chainInfo := find_chainInfo chainsInfo chainId in
  match chainInfo with
  | None =>
      emit (console_error ("Chain " +:+ pretty chainId
              +:+ " is not supported or chain info was not set during handshake"));;
      mret false
  | Some _ =>
  match chain' with
  | None =>
      emit (console_error ("Chain " +:+ pretty chainId
              +:+ " is missing in the configuration"));;
      mret false
  | Some chain' =>
      active ← reads (chain this);
      if chain_id chain' =? chain_id active then mret true
      else
        account ← reads (account this);
        StorageItem_set (_account this)
          (Some (spread_account account (chain_id chain')));;
        mret true
  end end.

(** [private async tryLocalHandling(request)]; [None] is [undefined], the
    answer that sends the request on to the auth server. *)
Definition tryLocalHandling (this : Signer) (request : RpcRequest) : M (option RpcValue) :=
  match request with
  | eth_estimateGas params =>
      client ← reads walletClient;
      session ← reads (session this);
      match client, session with
      | Some client, Some _ =>
          res ← call (client_request client "eth_estimateGas" params)
                     (walletClient_request env client "eth_estimateGas" params);
          mret (Some (json_value res))
      | _, _ => mret None
      end
  | eth_sendTransaction transactionRequest =>
      client ← reads walletClient;
      session ← reads (session this);
      match client, session with
      | Some client, Some _ =>
          res ← call (client_sendTransaction client transactionRequest)
                     (walletClient_sendTransaction env client transactionRequest);
          mret (Some (json_value res))
      | _, _ => mret None
      end
  | wallet_switchEthereumChain chainId =>
      chainId ← match chainId with
                | chainId_string hex => λ w, (hexToNumber env hex, w)
                | chainId_number n => mret n
                end;
      switched ← switchChain this chainId;
      mret (if switched : bool then Some null else None)
  | wallet_getCapabilities =>
      chainsInfo ← reads (chainsInfo this);
      active ← reads (chain this);
      match find_chainInfo chainsInfo (chain_id active) with
      | None => mthrow (Error "Chain info is not set")
      | Some chainInfo =>
          active ← reads (chain this);
          mret (Some (capabilities_value (chain_id active)
                        (chainInfo_capabilities chainInfo)))
      end
  | eth_accounts =>
      accounts ← reads (accounts this);
      mret (Some (addresses_value accounts))
  | other_method _ _ => mret None
  end.

(** [async request(request)]; the value is [None] when the auth server's
    content carries no [result]. *)
Definition request (this : Signer) (request : RpcRequest) : M (option RpcValue) :=
  localResult ← tryLocalHandling this request;
  match localResult with
  | Some localResult => mret (Some localResult)
  | None =>
      response ← sendRpcRequest this RpcSchema request;
      mret (@response_result RpcSchema response)
  end.

(** [async disconnect()] *)
Definition disconnect (this : Signer) : M unit := clearState this.

End SignerModel.

(** ** Vocabulary of the statements *)

(** [chainId] is the id of a chain of the configured chain list. *)
Definition configured (this : Signer) (chainId : Z) : Prop :=
  chainId ∈ chain_id <$> chains this.

(** The chains info has an entry for [chainId]. *)
Definition described (chainsInfo : ChainsInfo) (chainId : Z) : Prop :=
  chainId ∈ chainInfo_id <$> chainsInfo.

(** The id the getters settle on: the stored id when it is configured and
    truthy, the first chain's id otherwise. *)
Definition resolved_id (this : Signer) (stored : option Account) : Z :=
  match stored with
  | Some a =>
      js_or (chain_id <$> find_chain this (account_activeChainId a))
            (chain_id (firstChain this))
  | None => chain_id (firstChain this)
  end.

(** The client [createWalletClient] builds from the account in [w] and
    the chain's entry [chainInfo]; none when the account has no session. *)
Definition walletClient_for (this : Signer) (w : World) (chainInfo : ChainInfo)
  : option ZksyncSsoSessionClient :=
  session ← session this w;
  Some (createZksyncSessionClient
    {| client_address := account this w ≫= account_address;
       client_sessionKey := session_sessionKey session;
       client_sessionConfig := session_sessionConfig session;
       client_contracts := chainInfo_contracts chainInfo;
       client_chain := chain this w;
       client_transport := default http (transports this !! chain_id (chain this w)) |}).

(** The world once [_account.set(a)] has written the slot and told the
    listener, just before the callback rebuilds the wallet client. *)
Definition account_written (a : Account) (w : World) : World :=
  log (onChainUpdate (account_activeChainId a))
    (log (onAccountsUpdate [account_address a])
       (log (storage_write "account") (write_account (Some a) w))).

(** The events a call added to the trace, and the storage writes among
    them, oldest first. *)
Definition trace_since (before after : World) : list Event :=
  drop (length (trace before)) (trace after).

Definition writes (events : list Event) : list string :=
  omap (λ ev, if ev is storage_write key then Some key else None) events.

Definition is_communicator_event (ev : Event) : bool :=
  match ev with
  | communicator_ready | communicator_post _ _ => true
  | _ => false
  end.

Definition is_client_event (ev : Event) : bool :=
  match ev with
  | client_request _ _ _ | client_sendTransaction _ _ => true
  | _ => false
  end.

(** The metadata and session preferences [handshake] ends up sending, and
    the message it posts when called in world [w]. *)
Definition handshake_metadata (this : Signer) : AppMetadata :=
  match getMetadata this with
  | Ret metadata => metadata
  | Throw _ => {| metadata_name := "Unknown DApp"; metadata_icon := None |}
  end.

Definition handshake_sessionPreferences (this : Signer) : option SessionPreferences :=
  match sessionParameters this with
  | Some (Ret preferences) => Some preferences
  | _ => None
  end.

Definition handshake_request (env : Environment) (this : Signer) (w : World)
  : RPCRequestMessage AuthServerRpcSchema :=
  Build_RPCRequestMessage AuthServerRpcSchema
    (randomUUID env (uuids w))
    (eth_requestAccounts (handshake_metadata this) (handshake_sessionPreferences this))
    (chain_id (chain this w)).

(** The communicator is ready and answers the handshake started in [w]
    with result-shaped content carrying [data]. *)
Definition delivers (env : Environment) (this : Signer) (w : World)
    (data : HandshakeData) : Prop :=
  ready (communicator this) = Ret () ∧
  ∃ id, postRequestAndWaitForResponse (communicator this) AuthServerRpcSchema
          (handshake_request env this w)
        = Ret (Build_RPCResponseMessage AuthServerRpcSchema id (Some data) None).

(** The message [sendRpcRequest] posts for [request] when called in [w]. *)
Definition forwarded (env : Environment) (this : Signer) (w : World)
    (request : RpcRequest) : RPCRequestMessage RpcSchema :=
  Build_RPCRequestMessage RpcSchema
    (randomUUID env (uuids w)) request (chain_id (chain this w)).

(** The world after [sendRpcRequest] has posted [message]. *)
Definition posted {s} (message : RPCRequestMessage s) (w : World) : World :=
  log (communicator_post s message) (count_uuid (log communicator_ready w)).

(** The console errors [handshake] logs for providers that throw. *)
Definition provider_errors (this : Signer) : list Event :=
  (if getMetadata this is Throw _
   then [console_error "Failed to get website metadata. Proceeding with default one."]
   else [])
  ++ (if sessionParameters this is Some (Throw _)
      then [console_error "Failed to get session data. Proceeding connection with no session."]
      else []).

(** The world once [handshake] has asked both providers. *)
Definition announced (this : Signer) (w : World) : World :=
  let w1 :=
    if getMetadata this is Throw _
    then log (console_error "Failed to get website metadata. Proceeding with default one.") w
    else w in
  if sessionParameters this is Some (Throw _)
  then log (console_error "Failed to get session data. Proceeding connection with no session.") w1
  else w1.

(** The account [handshake] persists for [data] when called in [w]. *)
Definition handshake_stored (this : Signer) (w : World) (data : HandshakeData) : Account :=
  {| account_address := Some (handshake_address (handshake_account data));
     account_activeChainId :=
       js_or (handshake_activeChainId (handshake_account data)) (chain_id (chain this w));
     account_session := handshake_session (handshake_account data) |}.

(** The number [wallet_switchEthereumChain] hands to [switchChain]. *)
Definition normalized (env : Environment) (chainId : ChainIdParam) : Outcome Z :=
  match chainId with
  | chainId_string hex => hexToNumber env hex
  | chainId_number n => Ret n
  end.

(** [request] once local handling has answered [undefined]. *)
Definition forward (env : Environment) (this : Signer) (request : RpcRequest)
  : M (option RpcValue) :=
  response ← sendRpcRequest env this RpcSchema request;
  mret (@response_result RpcSchema response).

(** ** Sample configurations *)

(** Well-formed sample values: a 20-byte address and a 32-byte session
    key, in digits only so that a checksum leaves them as they are. *)
Definition sample_address : Address := "0x0000000000000000000000000000000000000001".

Definition sample_sessionKey : Hash :=
  "0x0000000000000000000000000000000000000000000000000000000000000002".

(** The session contract of sample chain [n] (for the ids below 100 that
    the samples use). *)
Definition sample_contract (n : Z) : Address :=
  if n <? 10 then "0x555000000000000000000000000000000000000" +:+ pretty n
  else "0x55500000000000000000000000000000000000" +:+ pretty n.

Definition sample_chain (n : Z) : Chain :=
  {| chain_id := n; chain_name := "chain " +:+ pretty n |}.

Definition sample_info (n : Z) : ChainInfo :=
  {| chainInfo_id := n;
     chainInfo_contracts := {[ "session" := sample_contract n ]};
     chainInfo_capabilities := ∅ |}.

Definition sample_session : Session :=
  {| session_sessionKey := sample_sessionKey; session_sessionConfig := "{}" |}.

(** A communicator that is always ready, answers a handshake with [data]
    and any other request with the text [remote]. *)
Definition answering (data : HandshakeData) : Communicator :=
  {| ready := Ret ();
     postRequestAndWaitForResponse := λ s,
       match s return RPCRequestMessage s → Outcome (RPCResponseMessage s) with
       | AuthServerRpcSchema => λ message,
           Ret (Build_RPCResponseMessage AuthServerRpcSchema
                  (request_id message) (Some data) None)
       | RpcSchema => λ message,
           Ret (Build_RPCResponseMessage RpcSchema
                  (request_id message) (Some (json_value "remote")) None)
       end |}.

Definition sample_params (chainIds : list Z) (data : HandshakeData)
  : SignerConstructorParams :=
  {| params_metadata := Ret {| metadata_name := "dapp"; metadata_icon := None |};
     params_communicator := answering data;
     params_chains := sample_chain <$> chainIds;
     params_transports := None;
     params_session := None |}.

Definition sample_data (activeChainId : option Z) (session : option Session)
    (infoIds : list Z) : HandshakeData :=
  {| handshake_account :=
       {| handshake_address := sample_address;
          handshake_activeChainId := activeChainId;
          handshake_session := session |};
     handshake_chainsInfo := sample_info <$> infoIds |}.

Definition hex_digit (c : Ascii.ascii) : option Z :=
  let n := Z.of_nat (Ascii.nat_of_ascii c) in
  if (48 <=? n) && (n <=? 57) then Some (n - 48)
  else if (97 <=? n) && (n <=? 102) then Some (n - 87)
  else if (65 <=? n) && (n <=? 70) then Some (n - 55)
  else None.

Fixpoint hex_digits (acc : Z) (s : string) : option Z :=
  match s with
  | EmptyString => Some acc
  | String c rest => d ← hex_digit c; hex_digits (16 * acc + d) rest
  end.

(** A stand-in for viem's [hexToNumber] on [0x]-prefixed digits. *)
Definition sample_hexToNumber (hex : Hex) : Outcome Z :=
  match hex with
  | String "0"%char (String "x"%char (String c rest)) =>
      match hex_digits 0 (String c rest) with
      | Some n => Ret n
      | None => Throw (Thrown "SyntaxError")
      end
  | _ => Throw (Thrown "SyntaxError")
  end.

Definition sample_env : Environment :=
  {| randomUUID := λ n, "uuid-" +:+ pretty n;
     hexToNumber := sample_hexToNumber;
     walletClient_request := λ _ _ _, Ret "0x5208";
     walletClient_sendTransaction := λ _ _, Ret "0xhash" |}.

(** Nothing persisted, nothing observed yet. *)
Definition empty_world : World :=
  {| storage_account := None;
     storage_chainsInfo := [];
     walletClient := None;
     trace := [];
     uuids := 0%nat |}.

(** The world and the Signer a constructor call leaves; the constructor
    does not throw on the sample parameters used below. *)
Definition constructed (params : SignerConstructorParams) (w : World) : Signer * World :=
  match constructor params w with
  | (Ret this, w') => (this, w')
  | (Throw _, w') => (assign_fields params (sample_chain 0) [], w')
  end.

(** The Signer and the world after constructing on empty storage and
    running one handshake against [answering data]. *)
Definition connected (chainIds : list Z) (data : HandshakeData) : Signer * World :=
  let '(this, w) := constructed (sample_params chainIds data) empty_world in
  (this, snd (handshake sample_env this w)).

(** ** The passkey client *)

(** [PasskeyRequiredContracts] *)
Record PasskeyRequiredContracts := {
  contracts_session : Address;
  contracts_passkey : Address;
  contracts_accountFactory : option Address;
}.

(** [ZksyncSsoPasskeyClientConfig]: the fields the function reads, with
    the chain and transport of viem's [WalletClientConfig]. *)
Record ZksyncSsoPasskeyClientConfig := {
  config_chain : Chain;
  config_transport : Transport;
  config_address : Address;
  config_credentialPublicKey : list N;
  config_userName : string;
  config_userDisplayName : string;
  config_contracts : PasskeyRequiredContracts;
  config_paymasterAddress : option Address;
  config_paymasterInput : option Hex;
  config_key : option string;
  config_name : option string;
}.

(** [ZksyncSsoPasskeyData], the object of the first [extend]. *)
Record ZksyncSsoPasskeyData := {
  data_credentialPublicKey : list N;
  data_userName : string;
  data_userDisplayName : string;
  data_contracts : PasskeyRequiredContracts;
  data_paymasterAddress : option Address;
  data_paymasterInput : option Hex;
}.

(** What [createZksyncPasskeyClient] hands to viem: the argument of
    [createClient] (the parameters with address, key and name settled, the
    smart account's address and its [sign], the client type) and the data
    of the first [extend].  The three action sets extended after that are
    viem's and are left out. *)
Record ZksyncSsoPasskeyClient := {
  passkey_parameters : ZksyncSsoPasskeyClientConfig;
  passkey_key : string;
  passkey_name : string;
  passkey_account_address : Address;
  passkey_account_sign : Hash → Outcome Hex;
  passkey_type : string;
  passkey_data : ZksyncSsoPasskeyData;
}.

(** What the passkey client calls: viem's [getAddress], which throws on
    text that is no address, the passkey prompt and the signature
    formatter. *)
Record PasskeyEnvironment := {
  getAddress : Address → Outcome Address;
  requestPasskeyAuthentication : Hash → list N → Outcome Json;
  passkeyHashSignatureResponseFormat : Json → PasskeyRequiredContracts → Outcome Hex;
}.

(** JavaScript's [a || b] on an optional string: [undefined] and the empty
    string are falsy. *)
Definition js_or_string (a : option string) (b : string) : string :=
  match a with
  | Some "" | None => b
  | Some s => s
  end.

Definition bind_outcome {A B} (o : Outcome A) (f : A → Outcome B) : Outcome B :=
  match o with
  | Ret a => f a
  | Throw e => Throw e
  end.

(** [createZksyncPasskeyClient(_parameters)] *)
Definition createZksyncPasskeyClient (penv : PasskeyEnvironment)
    (_parameters : ZksyncSsoPasskeyClientConfig) : Outcome ZksyncSsoPasskeyClient :=
  bind_outcome (getAddress penv (config_address _parameters)) (λ address,
  let key := js_or_string (config_key _parameters) "zksync-sso-passkey-wallet" in
  let name := js_or_string (config_name _parameters) "ZKsync SSO Passkey Client" in
  let parameters :=
    {| config_chain := config_chain _parameters;
       config_transport := config_transport _parameters;
       config_address := address;
       config_credentialPublicKey := config_credentialPublicKey _parameters;
       config_userName := config_userName _parameters;
       config_userDisplayName := config_userDisplayName _parameters;
       config_contracts := config_contracts _parameters;
       config_paymasterAddress := config_paymasterAddress _parameters;
       config_paymasterInput := config_paymasterInput _parameters;
       config_key := Some key;
       config_name := Some name |} in
  let sign (hash : Hash) : Outcome Hex :=
    bind_outcome
      (requestPasskeyAuthentication penv hash (config_credentialPublicKey parameters))
      (λ passkeySignature,
         passkeyHashSignatureResponseFormat penv passkeySignature
           (config_contracts parameters)) in
  Ret {| passkey_parameters := parameters;
         passkey_key := key;
         passkey_name := name;
         passkey_account_address := config_address parameters;
         passkey_account_sign := sign;
         passkey_type := "walletClient";
         passkey_data :=
           {| data_credentialPublicKey := config_credentialPublicKey parameters;
              data_userName := config_userName parameters;
              data_userDisplayName := config_userDisplayName parameters;
              data_contracts := config_contracts parameters;
              data_paymasterAddress := config_paymasterAddress parameters;
              data_paymasterInput := config_paymasterInput parameters |} |}).

(** ** Further vocabulary and samples *)

(** Both persisted slots and the wallet client are in [w'] what they were
    in [w]. *)
Definition same_state (w w' : World) : Prop :=
  storage_account w' = storage_account w
  ∧ storage_chainsInfo w' = storage_chainsInfo w
  ∧ walletClient w' = walletClient w.

(** The two callbacks of the update listener. *)
Definition is_listener_event (ev : Event) : bool :=
  match ev with
  | onAccountsUpdate _ | onChainUpdate _ => true
  | _ => false
  end.

(** The ids of the messages posted to the communicator, oldest first. *)
Definition posted_ids (events : list Event) : list string :=
  omap (λ ev, if ev is communicator_post _ message then Some (request_id message)
              else None)
       events.

(** A caller issuing requests one after the other, whatever each one's
    outcome; the world after the last. *)
Fixpoint requests (env : Environment) (this : Signer) (rs : list RpcRequest)
    (w : World) : World :=
  match rs with
  | [] => w
  | r :: rs => requests env this rs (snd (request env this r w))
  end.

(** A communicator whose popup never opens. *)
Definition blocked : Communicator :=
  {| ready := Throw (Thrown "popup blocked");
     postRequestAndWaitForResponse := λ s _, Throw (Thrown "not reached") |}.

(** A communicator that is ready and answers every request with
    error-shaped content. *)
Definition refusing (error : Json) : Communicator :=
  {| ready := Ret ();
     postRequestAndWaitForResponse := λ s message,
       Ret (Build_RPCResponseMessage s (request_id message) None (Some error)) |}.

(** A Signer on the sample chains with the given ids, talking to
    [communicator]; its metadata provider answers and it has no session
    provider. *)
Definition sample_signer (first : Z) (others : list Z) (communicator : Communicator)
  : Signer :=
  {| getMetadata := Ret {| metadata_name := "dapp"; metadata_icon := None |};
     communicator := communicator;
     firstChain := sample_chain first;
     otherChains := sample_chain <$> others;
     transports := ∅;
     sessionParameters := None |}.

(** The same Signer with both providers throwing. *)
Definition with_failing_providers (this : Signer) : Signer :=
  {| getMetadata := Throw (Thrown "no document");
     communicator := communicator this;
     firstChain := firstChain this;
     otherChains := otherChains this;
     transports := transports this;
     sessionParameters := Some (Throw (Thrown "no session")) |}.

Definition sample_account (activeChainId : Z) (session : option Session) : Account :=
  {| account_address := Some sample_address;
     account_activeChainId := activeChainId;
     account_session := session |}.

(** ** Facts about the getters *)

Lemma find_by_id {A} (f : A → Z) (l : list A) (n : Z) :
  is_Some (find (λ e, f e =? n) l) ↔ n ∈ f <$> l.
Proof.
  induction l as [|x l IH]; simpl.
  - split; [intros [? ?]; discriminate | intros H; inversion H].
  - destruct (Z.eqb_spec (f x) n) as [Heq|Hne].
    + split; [intros _; subst; left | eauto].
    + rewrite IH. split; [by right |].
      intros H. inversion H; subst; [congruence | done].
Qed.

Lemma find_by_id_eq {A} (f : A → Z) (l : list A) (n : Z) (x : A) :
  find (λ e, f e =? n) l = Some x → f x = n.
Proof. intros H. apply find_some in H as [_ H]. by apply Z.eqb_eq. Qed.

Lemma find_chain_configured this n :
  is_Some (find_chain this n) ↔ configured this n.
Proof. apply find_by_id. Qed.

Lemma find_chainInfo_described chainsInfo n :
  is_Some (find_chainInfo chainsInfo n) ↔ described chainsInfo n.
Proof. apply find_by_id. Qed.

Lemma find_chain_id this n c : find_chain this n = Some c → chain_id c = n.
Proof. apply find_by_id_eq. Qed.

Lemma find_chain_first this :
  find_chain this (chain_id (firstChain this)) = Some (firstChain this).
Proof. unfold find_chain, chains. simpl. by rewrite Z.eqb_refl. Qed.

Lemma find_chain_again this n c :
  find_chain this n = Some c → find_chain this (chain_id c) = Some c.
Proof. intros H. by rewrite (find_chain_id _ _ _ H). Qed.

Lemma js_or_again a b : js_or (Some (js_or a b)) b = js_or a b.
Proof.
  destruct a as [n|]; simpl.
  - destruct (Z.eqb_spec n 0) as [->|Hn]; [by destruct (b =? 0) |].
    by apply Z.eqb_neq in Hn as ->.
  - by destruct (b =? 0).
Qed.

Lemma chain_lookup_id this w :
  js_or (account_activeChainId <$> account this w) (chain_id (firstChain this))
  = resolved_id this (storage_account w).
Proof.
  unfold account, slot_get, resolved_id. simpl.
  destruct (storage_account w) as [a|]; simpl; [apply js_or_again | done].
Qed.

Lemma resolved_id_found this stored :
  is_Some (find_chain this (resolved_id this stored)).
Proof.
  unfold resolved_id. destruct stored as [a|]; [| rewrite find_chain_first; eauto].
  destruct (find_chain this (account_activeChainId a)) as [c|] eqn:Hc; simpl.
  - destruct (chain_id c =? 0); [rewrite find_chain_first; eauto |].
    rewrite (find_chain_again _ _ _ Hc). eauto.
  - rewrite find_chain_first. eauto.
Qed.

(** The id the [chain] getter looks up is one of a configured chain, so
    its [find] succeeds: the non-null assertion of the source holds. *)
Lemma chain_is_found this w :
  find_chain this
    (js_or (account_activeChainId <$> account this w) (chain_id (firstChain this)))
  = Some (chain this w).
Proof.
  unfold chain. rewrite chain_lookup_id.
  by destruct (resolved_id_found this (storage_account w)) as [c ->].
Qed.

Lemma chain_id_active this w :
  chain_id (chain this w)
  = js_or (account_activeChainId <$> account this w) (chain_id (firstChain this)).
Proof. apply find_chain_id with this, chain_is_found. Qed.

Lemma chain_id_resolved this w :
  chain_id (chain this w) = resolved_id this (storage_account w).
Proof. rewrite chain_id_active. apply chain_lookup_id. Qed.

Lemma find_chain_active this w :
  find_chain this (chain_id (chain this w)) = Some (chain this w).
Proof. rewrite chain_id_active. apply chain_is_found. Qed.

Lemma chain_configured this w : configured this (chain_id (chain this w)).
Proof. apply find_chain_configured. rewrite find_chain_active. eauto. Qed.

(** The getters look at the account slot only. *)
Lemma account_ext this w w' :
  storage_account w = storage_account w' → account this w = account this w'.
Proof. unfold account, slot_get. simpl. by intros ->. Qed.

Lemma chain_ext this w w' :
  storage_account w = storage_account w' → chain this w = chain this w'.
Proof. intros H. unfold chain. by rewrite (account_ext _ _ _ H). Qed.

Lemma session_ext this w w' :
  storage_account w = storage_account w' → session this w = session this w'.
Proof. intros H. unfold session. by rewrite (account_ext _ _ _ H). Qed.

Lemma accounts_ext this w w' :
  storage_account w = storage_account w' → accounts this w = accounts this w'.
Proof. intros H. unfold accounts. by rewrite (account_ext _ _ _ H). Qed.

(** Logging, the wallet client, the chains info slot and the id counter do
    not show in what the getters return. *)
Section Updates.
Context (this : Signer) (w : World).

Lemma account_log ev : account this (log ev w) = account this w.
Proof. done. Qed.
Lemma account_with_walletClient c : account this (with_walletClient c w) = account this w.
Proof. done. Qed.
Lemma account_write_chainsInfo v : account this (write_chainsInfo v w) = account this w.
Proof. done. Qed.
Lemma account_count_uuid : account this (count_uuid w) = account this w.
Proof. done. Qed.
Lemma chain_log ev : chain this (log ev w) = chain this w.
Proof. done. Qed.
Lemma chain_with_walletClient c : chain this (with_walletClient c w) = chain this w.
Proof. done. Qed.
Lemma chain_write_chainsInfo v : chain this (write_chainsInfo v w) = chain this w.
Proof. done. Qed.
Lemma chain_count_uuid : chain this (count_uuid w) = chain this w.
Proof. done. Qed.
Lemma session_log ev : session this (log ev w) = session this w.
Proof. done. Qed.
Lemma session_with_walletClient c : session this (with_walletClient c w) = session this w.
Proof. done. Qed.
Lemma session_write_chainsInfo v : session this (write_chainsInfo v w) = session this w.
Proof. done. Qed.
Lemma session_count_uuid : session this (count_uuid w) = session this w.
Proof. done. Qed.
Lemma accounts_log ev : accounts this (log ev w) = accounts this w.
Proof. done. Qed.
Lemma accounts_with_walletClient c : accounts this (with_walletClient c w) = accounts this w.
Proof. done. Qed.
Lemma accounts_write_chainsInfo v : accounts this (write_chainsInfo v w) = accounts this w.
Proof. done. Qed.
Lemma chainsInfo_log ev : chainsInfo this (log ev w) = chainsInfo this w.
Proof. done. Qed.
Lemma chainsInfo_with_walletClient c : chainsInfo this (with_walletClient c w) = chainsInfo this w.
Proof. done. Qed.
Lemma chainsInfo_write_account v : chainsInfo this (write_account v w) = chainsInfo this w.
Proof. done. Qed.
Lemma chainsInfo_write_chainsInfo v : chainsInfo this (write_chainsInfo v w) = v.
Proof. done. Qed.
End Updates.

Create Rewrite HintDb world.
#[local] Hint Rewrite account_log account_with_walletClient account_write_chainsInfo
  account_count_uuid chain_log chain_with_walletClient chain_write_chainsInfo
  chain_count_uuid session_log session_with_walletClient session_write_chainsInfo
  session_count_uuid accounts_log accounts_with_walletClient accounts_write_chainsInfo
  chainsInfo_log chainsInfo_with_walletClient chainsInfo_write_account
  chainsInfo_write_chainsInfo : world.

(** ** What each operation computes *)

Lemma createWalletClient_run this w :
  createWalletClient this w =
  match account this w, find_chainInfo (chainsInfo this w) (chain_id (chain this w)) with
  | None, _ => (Throw (Error "Account is not set"), w)
  | Some _, None =>
      (Throw (Error "Chain info for [object Object] wasn't set during handshake"), w)
  | Some _, Some chainInfo =>
      (Ret (), with_walletClient (walletClient_for this w chainInfo) w)
  end.
Proof.
  unfold createWalletClient, walletClient_for, mbind at 1 2 3 4, M_bind, reads.
  destruct (account this w) as [a|]; [| done].
  destruct (find_chainInfo _ _) as [ci|]; [| done].
  by destruct (session this w).
Qed.

Lemma account_set_run this a w :
  StorageItem_set (_account this) (Some a) w =
  createWalletClient this (account_written a w).
Proof. done. Qed.

Lemma account_remove_run this w :
  StorageItem_remove (_account this) w =
  (Ret (), log (onAccountsUpdate []) (log (storage_write "account") (write_account None w))).
Proof. done. Qed.

Lemma chainsInfo_set_run v w :
  StorageItem_set _chainsInfo v w =
  (Ret (), log (storage_write "chainsInfo") (write_chainsInfo v w)).
Proof. done. Qed.

Lemma clearState_run this w :
  clearState this w =
  (Ret (), log (storage_write "chainsInfo") (write_chainsInfo []
     (log (onAccountsUpdate []) (log (storage_write "account") (write_account None w))))).
Proof. done. Qed.

Lemma chain_id_account_written this a w :
  chain_id (chain this (account_written a w)) = resolved_id this (Some a).
Proof. by rewrite chain_id_resolved. Qed.

(** Setting the account succeeds exactly when the chains info describes
    the chain the new account resolves to. *)
Lemma account_set_outcome this a w :
  StorageItem_set (_account this) (Some a) w =
  let w1 := account_written a w in
  match find_chainInfo (chainsInfo this w) (resolved_id this (Some a)) with
  | Some chainInfo => (Ret (), with_walletClient (walletClient_for this w1 chainInfo) w1)
  | None =>
      (Throw (Error "Chain info for [object Object] wasn't set during handshake"), w1)
  end.
Proof.
  rewrite account_set_run, createWalletClient_run, chain_id_account_written.
  by change (chainsInfo this (account_written a w)) with (chainsInfo this w).
Qed.

Lemma switchChain_run this chainId w :
  switchChain this chainId w =
  match find_chainInfo (chainsInfo this w) chainId, find_chain this chainId with
  | None, _ =>
      (Ret false, log (console_error ("Chain " +:+ pretty chainId
          +:+ " is not supported or chain info was not set during handshake")) w)
  | Some _, None =>
      (Ret false, log (console_error ("Chain " +:+ pretty chainId
          +:+ " is missing in the configuration")) w)
  | Some _, Some c =>
      if chain_id c =? chain_id (chain this w) then (Ret true, w)
      else (StorageItem_set (_account this)
              (Some (spread_account (account this w) (chain_id c)));; mret true) w
  end.
Proof.
  unfold switchChain, mbind at 1, M_bind, reads.
  destruct (find_chainInfo _ _); [| done].
  destruct (find_chain _ _); [| done].
  unfold mbind at 1, M_bind. by destruct (_ =? _).
Qed.

Lemma resolved_id_spread this stored c :
  find_chain this (chain_id c) = Some c → chain_id c ≠ 0 →
  resolved_id this (Some (spread_account stored (chain_id c))) = chain_id c.
Proof.
  intros Hc H0. unfold resolved_id. simpl. rewrite Hc. simpl.
  by apply Z.eqb_neq in H0 as ->.
Qed.

(** ** Chain switching *)

(** X22: for every chain id other than 0, [switchChain] returns [true]
    with the active chain then being that chain if and only if the id is
    configured and the cached chains info has an entry for it; and for
    every chain id, when it is not both configured and described,
    [switchChain] returns [false] and leaves both persisted slots as they
    were. *)
Theorem switchChain_configured_and_described this w chainId :
  let result := fst (switchChain this chainId w) in
  let w' := snd (switchChain this chainId w) in
  (chainId ≠ 0 →
   ((result = Ret true ∧ chain_id (chain this w') = chainId)
      ↔ (configured this chainId ∧ described (chainsInfo this w) chainId)))
  ∧ (¬ (configured this chainId ∧ described (chainsInfo this w) chainId) →
     result = Ret false
     ∧ storage_account w' = storage_account w
     ∧ storage_chainsInfo w' = storage_chainsInfo w).
Proof.
  intros result w'. subst result w'.
  rewrite <- find_chain_configured, <- find_chainInfo_described.
  rewrite switchChain_run.
  destruct (find_chainInfo _ _) as [ci|] eqn:Hci.
  2: { simpl. split; [intros _ | done].
       split; [intros [? _]; discriminate | intros [_ [? ?]]; discriminate]. }
  destruct (find_chain _ _) as [c|] eqn:Hc.
  2: { simpl. split; [intros _ | done].
       split; [intros [? _]; discriminate | intros [[? ?] _]; discriminate]. }
  assert (chain_id c = chainId) as <- by eauto using find_chain_id.
  split; [intros H0 | intros []; eauto].
  split; [eauto | intros _].
  destruct (Z.eqb_spec (chain_id c) (chain_id (chain this w))) as [He|Hne]; [done |].
  unfold mbind, M_bind. rewrite account_set_outcome. cbv zeta.
  rewrite resolved_id_spread by done.
  rewrite Hci. simpl. split; [done |].
  rewrite chain_id_resolved. exact (resolved_id_spread _ _ _ Hc H0).
Qed.

Lemma switchChain_configured_and_described_witness :
  let '(this, w) := connected [1; 10] (sample_data (Some 1) None [1; 10]) in
  10 ≠ 0
  ∧ (configured this 10 ∧ described (chainsInfo this w) 10)
  ∧ fst (switchChain this 10 w) = Ret true
  ∧ chain_id (chain this (snd (switchChain this 10 w))) = 10.
Proof.
  assert (10 ≠ 0) as H0 by lia.
  pose proof (proj1 (switchChain_configured_and_described
    (fst (connected [1; 10] (sample_data (Some 1) None [1; 10])))
    (snd (connected [1; 10] (sample_data (Some 1) None [1; 10]))) 10) H0) as [_ T].
  assert (configured (fst (connected [1; 10] (sample_data (Some 1) None [1; 10]))) 10
          ∧ described (chainsInfo
                         (fst (connected [1; 10] (sample_data (Some 1) None [1; 10])))
                         (snd (connected [1; 10] (sample_data (Some 1) None [1; 10]))))
                      10) as Hboth.
  { split; [apply find_chain_configured | apply find_chainInfo_described];
      vm_compute; eauto. }
  split; [exact H0 |]. split; [exact Hboth |]. exact (T Hboth).
Defined.

(** C1, evaluated where the code departs from it: chains 1 and 0 are
    configured, in this order, and the handshake has described both and
    left chain 1 active.  [switchChain(0)] returns [true], persists
    [activeChainId] 0 and announces chain 0 to the listener, yet the
    active chain is still chain 1 afterwards: the getters resolve the id
    with [||], which reads id 0 as a missing one and puts the first
    chain's id in its place.  With the same two chains listed as 0, 1 the
    same call does make chain 0 the active chain. *)
Theorem switchChain_zero_stays_on_first_chain :
  let '(this, w) := connected [1; 0] (sample_data (Some 1) None [0; 1]) in
  let w' := snd (switchChain this 0 w) in
  (configured this 0 ∧ described (chainsInfo this w) 0)
  ∧ chain_id (chain this w) = 1
  ∧ fst (switchChain this 0 w) = Ret true
  ∧ storage_account w' = Some (sample_account 0 None)
  ∧ trace_since w w'
    = [storage_write "account"; onAccountsUpdate [Some sample_address]; onChainUpdate 0]
  ∧ account this w' = Some (sample_account 1 None)
  ∧ chain_id (chain this w') = 1
  ∧ let '(this0, w0) := connected [0; 1] (sample_data (Some 1) None [0; 1]) in
    chain_id (chain this0 w0) = 1
    ∧ fst (switchChain this0 0 w0) = Ret true
    ∧ chain_id (chain this0 (snd (switchChain this0 0 w0))) = 0.
Proof.
  split; [split |].
  - apply find_chain_configured. vm_compute. eauto.
  - apply find_chainInfo_described. vm_compute. eauto.
  - by vm_compute.
Qed.

(** C3, as amended: when [chainId] is already the active chain id,
    [switchChain] changes neither persisted slot nor the wallet client; it
    returns [true], leaving the world exactly as it was, when the cached
    chains info has an entry for that chain; when it has none, it logs
    the error "Chain ... is not supported or chain info was not set during
    handshake", which is all it does, and returns [false]. *)
Theorem switchChain_already_active this w chainId :
  chainId = chain_id (chain this w) →
  let result := fst (switchChain this chainId w) in
  let w' := snd (switchChain this chainId w) in
  storage_account w' = storage_account w
  ∧ storage_chainsInfo w' = storage_chainsInfo w
  ∧ walletClient w' = walletClient w
  ∧ (described (chainsInfo this w) chainId → result = Ret true ∧ w' = w)
  ∧ (¬ described (chainsInfo this w) chainId →
     result = Ret false
     ∧ trace_since w w'
       = [console_error ("Chain " +:+ pretty chainId
            +:+ " is not supported or chain info was not set during handshake")]
     ∧ uuids w' = uuids w).
Proof.
  intros -> result w'. subst result w'.
  rewrite <- find_chainInfo_described, switchChain_run, find_chain_active.
  destruct (find_chainInfo _ _) as [ci|]; [rewrite Z.eqb_refl |].
  - simpl. do 3 (split; [done |]). split; [done |]. intros H. destruct H. eauto.
  - cbn [fst snd]. do 3 (split; [done |]). split; [by intros [? ?] |].
    intros _. split; [done |]. split; [| done].
    unfold trace_since. simpl. apply drop_app_length.
Qed.

Lemma switchChain_already_active_witness :
  let '(this, w) := connected [1; 10] (sample_data (Some 10) None [1; 10]) in
  10 = chain_id (chain this w)
  ∧ (described (chainsInfo this w) 10 →
     fst (switchChain this 10 w) = Ret true ∧ snd (switchChain this 10 w) = w).
Proof.
  split; [reflexivity |].
  refine (proj1 (proj2 (proj2 (proj2 (switchChain_already_active _ _ 10 _))))).
  reflexivity.
Defined.

(** C3 as stated fails on a Signer that has not shaken hands yet: chain 1
    is the active chain, and [switchChain(1)] returns [false] because the
    chains info is still empty. *)
Lemma switchChain_active_counterexample :
  let '(this, w) := constructed (sample_params [1] (sample_data None None [])) empty_world in
  chain_id (chain this w) = 1 ∧ fst (switchChain this 1 w) = Ret false.
Proof. by vm_compute. Qed.

(** ** Construction, reading the account, disconnecting *)

Lemma createWalletClient_outcome_with_walletClient this c w :
  fst (createWalletClient this (with_walletClient c w)) = fst (createWalletClient this w).
Proof.
  rewrite !createWalletClient_run. autorewrite with world.
  destruct (account this w); [| done]. by destruct (find_chainInfo _ _).
Qed.

Lemma createWalletClient_throw_keeps this w e :
  fst (createWalletClient this w) = Throw e → snd (createWalletClient this w) = w.
Proof.
  rewrite createWalletClient_run.
  destruct (account this w); [| done]. by destruct (find_chainInfo _ _).
Qed.

(** A constructor call on a chain list [chain0 :: others]. *)
Lemma constructor_run params chain0 others w :
  params_chains params = chain0 :: others →
  let this := assign_fields params chain0 others in
  let w0 := with_walletClient None w in
  constructor params w =
  match account this w, createWalletClient this w0 with
  | None, _ => (Ret this, w0)
  | Some _, (Ret _, w1) => (Ret this, w1)
  | Some _, (Throw _, w1) =>
      (Ret this,
       snd (clearState this
              (log (console_error "Logging out to prevent crash loop")
                 (log (console_error "Failed to create wallet client") w1))))
  end.
Proof.
  intros Hc this w0. unfold constructor. rewrite Hc. fold this.
  unfold mbind at 1 2, M_bind, set_walletClient, modify, try_catch,
    mbind at 1, M_bind, reads.
  fold w0. change (account this w0) with (account this w).
  destruct (account this w) as [a|]; [| done].
  by destruct (createWalletClient this w0) as [[[]|e] w1].
Qed.

(** C8: constructing a Signer throws when the configured chain list is
    empty, and returns a Signer (it does not throw) for every chain list
    with at least one entry, whatever the storage holds. *)
Theorem constructor_throws_iff_no_chains params w :
  (params_chains params = [] →
   fst (constructor params w)
   = Throw (Error "At least one chain must be included in the config"))
  ∧ (params_chains params ≠ [] → ∃ this, fst (constructor params w) = Ret this)
  ∧ ((∃ e, fst (constructor params w) = Throw e) ↔ params_chains params = []).
Proof.
  destruct (params_chains params) as [|chain0 others] eqn:Hc.
  - assert (fst (constructor params w)
            = Throw (Error "At least one chain must be included in the config")) as H
      by (unfold constructor; by rewrite Hc).
    split; [done |]. split; [done |]. split; [done | eauto].
  - assert (fst (constructor params w) = Ret (assign_fields params chain0 others)) as H.
    { rewrite (constructor_run _ _ _ _ Hc). cbv zeta.
      destruct (account _ w); [| done].
      by destruct (createWalletClient _ _) as [[[]|e] w1]. }
    split; [done |]. split; [eauto |].
    split; [intros [e He]; congruence | done].
Qed.

(** C7: when an account is in storage at construction and rebuilding the
    session client throws, the constructor still returns the Signer, and
    it leaves both persisted slots at their defaults, no wallet client and
    no account to report. *)
Theorem constructor_clears_state_when_rebuild_throws params w chain0 others e :
  params_chains params = chain0 :: others →
  is_Some (storage_account w) →
  fst (createWalletClient (assign_fields params chain0 others) w) = Throw e →
  let this := assign_fields params chain0 others in
  let w' := snd (constructor params w) in
  fst (constructor params w) = Ret this
  ∧ storage_account w' = None
  ∧ storage_chainsInfo w' = []
  ∧ walletClient w' = None
  ∧ accounts this w' = [].
Proof.
  intros Hc [a Ha] He this w'. subst w'.
  rewrite (constructor_run _ _ _ _ Hc). cbv zeta. fold this.
  assert (account this w ≠ None) as Hacc
    by (unfold account, slot_get; simpl; by rewrite Ha).
  destruct (account this w) as [a'|]; [clear Hacc | done].
  pose proof (createWalletClient_outcome_with_walletClient this None w) as Hout.
  pose proof (createWalletClient_throw_keeps this (with_walletClient None w)) as Hkeep.
  fold this in He. rewrite He in Hout.
  destruct (createWalletClient this (with_walletClient None w)) as [[[]|e'] w1];
    simpl in *; [discriminate |].
  by rewrite (Hkeep e' eq_refl).
Qed.

Lemma constructor_clears_state_when_rebuild_throws_witness :
  let params := sample_params [1] (sample_data None None []) in
  let w := write_account
             (Some {| account_address := Some sample_address;
                      account_activeChainId := 1;
                      account_session := Some sample_session |}) empty_world in
  is_Some (storage_account w)
  ∧ fst (constructor params w) = Ret (assign_fields params (sample_chain 1) [])
  ∧ storage_account (snd (constructor params w)) = None
  ∧ storage_chainsInfo (snd (constructor params w)) = [].
Proof.
  split; [by eexists |].
  pose proof (constructor_clears_state_when_rebuild_throws
                (sample_params [1] (sample_data None None []))
                (write_account
                   (Some {| account_address := Some sample_address;
                            account_activeChainId := 1;
                            account_session := Some sample_session |}) empty_world)
                (sample_chain 1) []
                (Error "Chain info for [object Object] wasn't set during handshake")
                eq_refl (ex_intro _ _ eq_refl) eq_refl) as H.
  cbv zeta in H. exact (conj (proj1 H) (conj (proj1 (proj2 H)) (proj1 (proj2 (proj2 H))))).
Defined.

(** C9: when the persisted account's [activeChainId] matches no configured
    chain, reading the account gives the first configured chain's id as
    [activeChainId] and the active chain is the first configured chain;
    the read leaves the world, and so the persisted record with its stale
    id, as it was.  In every world the id a read observes and the id of
    the active chain are ids of configured chains. *)
Theorem account_read_falls_back_to_first_chain this w a :
  storage_account w = Some a →
  ¬ configured this (account_activeChainId a) →
  reads (account this) w
  = (Ret (Some {| account_address := account_address a;
                  account_activeChainId := chain_id (firstChain this);
                  account_session := account_session a |}), w)
  ∧ chain this w = firstChain this
  ∧ StorageItem_get (_account this) w = (Ret (Some a), w)
  ∧ (∀ w0 a0, account this w0 = Some a0 → configured this (account_activeChainId a0))
  ∧ (∀ w0, configured this (chain_id (chain this w0))).
Proof.
  intros Ha Hnot. rewrite <- find_chain_configured in Hnot.
  assert (find_chain this (account_activeChainId a) = None) as Hnone.
  { destruct (find_chain this (account_activeChainId a)) eqn:E; [| done].
    destruct Hnot. eauto. }
  assert (account this w
          = Some {| account_address := account_address a;
                    account_activeChainId := chain_id (firstChain this);
                    account_session := account_session a |}) as Hacc.
  { unfold account, slot_get. simpl. by rewrite Ha, Hnone. }
  split; [unfold reads; by rewrite Hacc |].
  split.
  { unfold chain. rewrite Hacc. simpl.
    destruct (chain_id (firstChain this) =? 0); by rewrite find_chain_first. }
  split; [unfold StorageItem_get, reads, slot_get; simpl; by rewrite Ha |].
  split; [| apply chain_configured].
  intros w0 a0 H0. unfold account, slot_get in H0. simpl in H0.
  destruct (storage_account w0) as [s|]; [| discriminate].
  injection H0 as <-. simpl.
  change (configured this (resolved_id this (Some s))).
  apply find_chain_configured, resolved_id_found.
Qed.

Lemma account_read_falls_back_to_first_chain_witness :
  let '(this, w) := connected [1; 10] (sample_data (Some 999) None [1]) in
  let a := {| account_address := Some sample_address;
              account_activeChainId := 999;
              account_session := None |} in
  storage_account w = Some a
  ∧ ¬ configured this (account_activeChainId a)
  ∧ chain this w = firstChain this.
Proof.
  assert (¬ configured (fst (connected [1; 10] (sample_data (Some 999) None [1]))) 999)
    as Hnot.
  { rewrite <- find_chain_configured. vm_compute. by intros [? ?]. }
  split; [reflexivity |]. split; [exact Hnot |].
  exact (proj1 (proj2 (account_read_falls_back_to_first_chain
    (fst (connected [1; 10] (sample_data (Some 999) None [1])))
    (snd (connected [1; 10] (sample_data (Some 999) None [1])))
    {| account_address := Some sample_address;
       account_activeChainId := 999;
       account_session := None |} eq_refl Hnot))).
Defined.

(** What [disconnect] leaves behind, for any Signer and world: both slots
    at their defaults, no account to report, and the [walletClient] field
    as it was, so that [getClient()] still hands out a client built
    before. *)
Lemma disconnect_run this w :
  let w' := snd (disconnect this w) in
  fst (disconnect this w) = Ret ()
  ∧ storage_account w' = None
  ∧ storage_chainsInfo w' = []
  ∧ accounts this w' = []
  ∧ walletClient w' = walletClient w
  ∧ fst (getClient this None w')
    = match walletClient w with
      | Some client => Ret client
      | None => Throw (Error "Wallet client is not created")
      end.
Proof.
  unfold disconnect. rewrite clearState_run. simpl.
  repeat (split; [done |]).
  unfold getClient, mbind, M_bind, reads. simpl.
  rewrite find_chain_active. simpl. by destruct (walletClient w).
Qed.

(** C2, evaluated where the code departs from it: a Signer on chain 1
    shakes hands and gets an account with a well-formed address (20
    bytes), a session with a 32-byte key, and the contracts of chain 1, so
    a wallet client is built from them; after [disconnect()] both slots
    are at their defaults and [accounts] is empty, but [getClient()]
    returns that wallet client instead of throwing. *)
Theorem disconnect_keeps_walletClient :
  let '(this, w) := connected [1] (sample_data (Some 1) (Some sample_session) [1]) in
  let w' := snd (disconnect this w) in
  accounts this w = [Some sample_address]
  ∧ fst (disconnect this w) = Ret ()
  ∧ storage_account w' = None
  ∧ storage_chainsInfo w' = []
  ∧ accounts this w' = []
  ∧ ∃ client,
      walletClient w = Some client
      ∧ client_address client = Some sample_address
      ∧ client_sessionKey client = sample_sessionKey
      ∧ client_contracts client = {[ "session" := sample_contract 1 ]}
      ∧ fst (getClient this None w') = Ret client.
Proof.
  cbv zeta.
  destruct (disconnect_run
              (fst (connected [1] (sample_data (Some 1) (Some sample_session) [1])))
              (snd (connected [1] (sample_data (Some 1) (Some sample_session) [1]))))
    as (H1 & H2 & H3 & H4 & _ & H6).
  split; [reflexivity |].
  repeat (split; [assumption |]).
  eexists. split; [reflexivity |]. repeat (split; [reflexivity |]). exact H6.
Qed.

(** ** The handshake *)

(** Both providers of [handshake] either answer or throw; most facts about
    it start by asking them. *)
Ltac ask_providers this :=
  destruct (getMetadata this), (sessionParameters this) as [[]|].

Lemma sendRpcRequest_run env this s request w :
  sendRpcRequest env this s request w =
  match ready (communicator this) with
  | Throw e => (Throw e, log communicator_ready w)
  | Ret _ =>
      let message :=
        Build_RPCRequestMessage s (randomUUID env (uuids w)) request
          (chain_id (chain this w)) in
      match postRequestAndWaitForResponse (communicator this) s message with
      | Throw e => (Throw e, posted message w)
      | Ret response =>
          match response_error response with
          | Some error => (Throw (Thrown error), posted message w)
          | None => (Ret response, posted message w)
          end
      end
  end.
Proof.
  unfold sendRpcRequest, call, emit, modify, mbind at 1 2, M_bind.
  destruct (ready (communicator this)) as [[]|e]; [| done].
  unfold mbind at 1, M_bind, reads, createRequestMessage, next_uuid.
  unfold mbind at 1 2 3 4 5 6, M_bind, reads, modify, mret, M_ret. cbv zeta.
  change (chain this (log communicator_ready w)) with (chain this w).
  change (uuids (log communicator_ready w)) with (uuids w).
  destruct (postRequestAndWaitForResponse _ _ _) as [response|e]; [| done].
  by destruct (response_error response).
Qed.

Lemma announced_trace this w : trace (announced this w) = trace w ++ provider_errors this.
Proof.
  unfold announced, provider_errors.
  ask_providers this; simpl;
    by rewrite ?app_nil_r, <- ?app_assoc.
Qed.

Lemma handshake_run env this w :
  handshake env this w =
  (responseMessage ← sendRpcRequest env this AuthServerRpcSchema
     (eth_requestAccounts (handshake_metadata this) (handshake_sessionPreferences this));
   match @response_result AuthServerRpcSchema responseMessage with
   | None => mthrow (TypeError "Cannot read properties of undefined (reading 'chainsInfo')")
   | Some handshakeData =>
       StorageItem_set _chainsInfo (handshake_chainsInfo handshakeData);;
       active ← reads (chain this);
       StorageItem_set (_account this)
         (Some {| account_address :=
                    Some (handshake_address (handshake_account handshakeData));
                  account_activeChainId :=
                    js_or (handshake_activeChainId (handshake_account handshakeData))
                          (chain_id active);
                  account_session :=
                    handshake_session (handshake_account handshakeData) |});;
       reads (accounts this)
   end) (announced this w).
Proof.
  unfold handshake, announced, handshake_metadata, handshake_sessionPreferences.
  unfold mbind at 1 2, M_bind, try_catch.
  destruct (getMetadata this) as [m|e], (sessionParameters this) as [[p|e']|]; done.
Qed.

Lemma handshake_delivered env this w data :
  delivers env this w data →
  handshake env this w =
  let a := handshake_stored this w data in
  let w1 := account_written a
              (log (storage_write "chainsInfo")
                 (write_chainsInfo (handshake_chainsInfo data)
                    (posted (handshake_request env this w) (announced this w)))) in
  match find_chainInfo (handshake_chainsInfo data) (resolved_id this (Some a)) with
  | Some chainInfo =>
      (Ret [account_address a], with_walletClient (walletClient_for this w1 chainInfo) w1)
  | None =>
      (Throw (Error "Chain info for [object Object] wasn't set during handshake"), w1)
  end.
Proof.
  intros [Hready [id Hpost]]. rewrite handshake_run.
  unfold mbind at 1, M_bind. rewrite sendRpcRequest_run, Hready.
  assert (Build_RPCRequestMessage AuthServerRpcSchema
            (randomUUID env (uuids (announced this w)))
            (eth_requestAccounts (handshake_metadata this) (handshake_sessionPreferences this))
            (chain_id (chain this (announced this w)))
          = handshake_request env this w) as ->.
  { unfold announced, handshake_request.
    by ask_providers this. }
  cbv zeta. rewrite Hpost. cbn [response_error response_result].
  unfold mbind at 1, M_bind. rewrite chainsInfo_set_run.
  unfold mbind at 1, M_bind, reads at 1.
  unfold mbind at 1, M_bind. rewrite account_set_outcome. cbv zeta.
  set (w0 := posted _ _).
  assert (chain this (log (storage_write "chainsInfo")
                        (write_chainsInfo (handshake_chainsInfo data) w0))
          = chain this w) as ->.
  { subst w0. unfold posted, announced.
    by ask_providers this. }
  fold (handshake_stored this w data).
  change (chainsInfo this (log _ (write_chainsInfo ?v _))) with v.
  destruct (find_chainInfo _ _) as [ci|]; [| done].
  done.
Qed.




Lemma chain_first this w :
  chain_id (chain this w) = chain_id (firstChain this) → chain this w = firstChain this.
Proof.
  intros H. pose proof (find_chain_active this w) as H'.
  rewrite H, find_chain_first in H'. congruence.
Qed.

Lemma trace_since_app w w' events :
  trace w' = trace w ++ events → trace_since w w' = events.
Proof. intros H. unfold trace_since. rewrite H. apply drop_app_length. Qed.

Lemma writes_provider_errors this : writes (provider_errors this) = [].
Proof.
  unfold provider_errors. by ask_providers this.
Qed.

(** The state a delivered handshake leaves, whether or not the rebuild of
    the wallet client then throws. *)
Lemma handshake_delivered_state env this w data :
  delivers env this w data →
  let w' := snd (handshake env this w) in
  let a := handshake_stored this w data in
  storage_account w' = Some a
  ∧ storage_chainsInfo w' = handshake_chainsInfo data
  ∧ trace_since w w'
    = (provider_errors this
       ++ [communicator_ready;
           communicator_post AuthServerRpcSchema (handshake_request env this w)])
      ++ [storage_write "chainsInfo"; storage_write "account"]
      ++ [onAccountsUpdate [account_address a];
          onChainUpdate (account_activeChainId a)].
Proof.
  intros H w' a. subst w'. rewrite (handshake_delivered _ _ _ _ H). cbv zeta. fold a.
  assert (∀ w1, trace w1 = trace (account_written a
              (log (storage_write "chainsInfo")
                 (write_chainsInfo (handshake_chainsInfo data)
                    (posted (handshake_request env this w) (announced this w))))) →
          trace_since w w1 = (provider_errors this
       ++ [communicator_ready;
           communicator_post AuthServerRpcSchema (handshake_request env this w)])
      ++ [storage_write "chainsInfo"; storage_write "account"]
      ++ [onAccountsUpdate [account_address a];
          onChainUpdate (account_activeChainId a)]) as Htrace.
  { intros w1 Hw1. apply trace_since_app. rewrite Hw1. simpl. rewrite announced_trace.
    by rewrite <- !app_assoc. }
  destruct (find_chainInfo _ _); simpl; (split; [done |]); (split; [done |]);
    by apply Htrace.
Qed.

Lemma handshake_delivered_chain_id env this w data :
  delivers env this w data →
  chain_id (chain this (snd (handshake env this w)))
  = resolved_id this (Some (handshake_stored this w data)).
Proof.
  intros H. rewrite chain_id_resolved.
  by destruct (handshake_delivered_state _ _ _ _ H) as [-> _].
Qed.




Lemma walletClient_announced this w : walletClient (announced this w) = walletClient w.
Proof. unfold announced. by ask_providers this. Qed.

(** C10: in a handshake whose response is delivered, the chains info slot
    is written just before the account slot and nothing else is written;
    the wallet client the account's callback rebuilds takes its contracts
    from the response's entry for the active chain (no entry there makes
    the rebuild throw and leaves the wallet client alone); and whatever
    chains info was cached before does not show in the outcome or in the
    world the handshake leaves. *)
Theorem handshake_rebuilds_from_response env this w data :
  delivers env this w data →
  let w' := snd (handshake env this w) in
  let response_account := handshake_account data in
  let fresh := find_chainInfo (handshake_chainsInfo data) (chain_id (chain this w')) in
  (∃ before after,
     trace_since w w'
     = before ++ [storage_write "chainsInfo"; storage_write "account"] ++ after
     ∧ writes before = [] ∧ writes after = [])
  ∧ (∀ chainInfo session,
       fresh = Some chainInfo → handshake_session response_account = Some session →
       walletClient w'
       = Some (createZksyncSessionClient
           {| client_address := Some (handshake_address response_account);
              client_sessionKey := session_sessionKey session;
              client_sessionConfig := session_sessionConfig session;
              client_contracts := chainInfo_contracts chainInfo;
              client_chain := chain this w';
              client_transport :=
                default http (transports this !! chain_id (chain this w')) |}))
  ∧ (∀ chainInfo,
       fresh = Some chainInfo → handshake_session response_account = None →
       walletClient w' = None)
  ∧ (is_Some fresh → fst (handshake env this w) = Ret [Some (handshake_address response_account)])
  ∧ (fresh = None →
     fst (handshake env this w)
     = Throw (Error "Chain info for [object Object] wasn't set during handshake")
     ∧ walletClient w' = walletClient w)
  ∧ (∀ cached,
       handshake env this (write_chainsInfo cached w) = handshake env this w).
Proof.
  intros H w' response_account fresh. subst w' fresh.
  pose proof (handshake_delivered_chain_id _ _ _ _ H) as Hid.
  destruct (handshake_delivered_state _ _ _ _ H) as (Hacc & Hinfo & Htrace).
  cbv zeta in Hacc, Htrace.
  split; [| split; [| split; [| split; [| split]]]].
  - eexists _, _. split; [exact Htrace |].
    split; [| done]. unfold writes. rewrite omap_app.
    fold (writes (provider_errors this)). by rewrite writes_provider_errors.
  - intros ci s Hci Hs.
    assert (walletClient (snd (handshake env this w))
            = walletClient_for this (snd (handshake env this w)) ci) as ->.
    { revert Hci. rewrite Hid, (handshake_delivered _ _ _ _ H). cbv zeta.
      by intros ->. }
    unfold walletClient_for, session, account, slot_get. simpl.
    rewrite Hacc. simpl. fold response_account. by rewrite Hs.
  - intros ci Hci Hs.
    assert (walletClient (snd (handshake env this w))
            = walletClient_for this (snd (handshake env this w)) ci) as ->.
    { revert Hci. rewrite Hid, (handshake_delivered _ _ _ _ H). cbv zeta.
      by intros ->. }
    unfold walletClient_for, session, account, slot_get. simpl.
    rewrite Hacc. simpl. fold response_account. by rewrite Hs.
  - rewrite Hid, (handshake_delivered _ _ _ _ H). cbv zeta.
    intros [ci ->]. done.
  - rewrite Hid, (handshake_delivered _ _ _ _ H). cbv zeta.
    intros ->. simpl. split; [done |]. apply walletClient_announced.
  - intros cached.
    assert (delivers env this (write_chainsInfo cached w) data) as H' by exact H.
    rewrite (handshake_delivered _ _ _ _ H), (handshake_delivered _ _ _ _ H'). cbv zeta.
    change (handshake_stored this (write_chainsInfo cached w) data)
      with (handshake_stored this w data).
    assert (account_written (handshake_stored this w data)
              (log (storage_write "chainsInfo")
                 (write_chainsInfo (handshake_chainsInfo data)
                    (posted (handshake_request env this (write_chainsInfo cached w))
                       (announced this (write_chainsInfo cached w)))))
            = account_written (handshake_stored this w data)
              (log (storage_write "chainsInfo")
                 (write_chainsInfo (handshake_chainsInfo data)
                    (posted (handshake_request env this w) (announced this w))))) as ->;
      [| done].
    unfold announced. by ask_providers this.
Qed.

Lemma handshake_rebuilds_from_response_witness :
  let data := sample_data (Some 10) (Some sample_session) [1; 10] in
  let this := fst (constructed (sample_params [1; 10] data) empty_world) in
  let w := write_chainsInfo [sample_info 7]
             (snd (constructed (sample_params [1; 10] data) empty_world)) in
  delivers sample_env this w data
  ∧ client_contracts <$> walletClient (snd (handshake sample_env this w))
    = Some (chainInfo_contracts (sample_info 10)).
Proof.
  intros data this w.
  assert (delivers sample_env this w data) as H
    by (split; [reflexivity | eexists; reflexivity]).
  pose proof (handshake_rebuilds_from_response sample_env this w data H) as T.
  cbv zeta in T. destruct T as (_ & T2 & _).
  split; [exact H |].
  by rewrite (T2 (sample_info 10) sample_session eq_refl eq_refl).
Defined.

(** ** Request dispatch *)

Lemma request_sendTransaction_run env this tx w :
  request env this (eth_sendTransaction tx) w =
  match walletClient w, session this w with
  | Some client, Some _ =>
      (match walletClient_sendTransaction env client tx with
       | Ret res => Ret (Some (json_value res))
       | Throw e => Throw e
       end, log (client_sendTransaction client tx) w)
  | _, _ => forward env this (eth_sendTransaction tx) w
  end.
Proof.
  unfold request, forward, tryLocalHandling, call, emit, modify.
  unfold mbind, M_bind, mret, M_ret, reads.
  destruct (walletClient w) as [c|]; [| done].
  destruct (session this w) as [s|]; [| done].
  by destruct (walletClient_sendTransaction env c tx).
Qed.

Lemma forward_events env this request w :
  trace (snd (forward env this request w))
  = trace w ++ communicator_ready ::
    (if ready (communicator this) is Ret _
     then [communicator_post RpcSchema (forwarded env this w request)] else []).
Proof.
  unfold forward, mbind, M_bind. rewrite sendRpcRequest_run.
  destruct (ready (communicator this)) as [[]|]; [| done]. cbv zeta.
  fold (forwarded env this w request).
  destruct (postRequestAndWaitForResponse _ _ _) as [r|];
    [destruct (response_error r) |]; simpl; by rewrite <- app_assoc.
Qed.

Lemma forward_trace env this request w :
  trace_since w (snd (forward env this request w))
  = communicator_ready ::
    (if ready (communicator this) is Ret _
     then [communicator_post RpcSchema (forwarded env this w request)] else []).
Proof. apply trace_since_app, forward_events. Qed.

Lemma forward_not_ready env this request w e :
  ready (communicator this) = Throw e → fst (forward env this request w) = Throw e.
Proof.
  intros H. unfold forward, mbind, M_bind. by rewrite sendRpcRequest_run, H.
Qed.

Lemma forward_no_client_event env this request w ev :
  ev ∈ trace_since w (snd (forward env this request w)) → is_client_event ev = false.
Proof.
  rewrite forward_trace. destruct (ready (communicator this));
    intros H; repeat (apply elem_of_cons in H as [-> | H]; [done |]);
    by apply elem_of_nil in H.
Qed.

(** C5, as amended: [request] of [eth_sendTransaction] invokes the local
    session client if and only if a wallet client exists and the current
    account has a session; it is then invoked once and its answer is the
    result.  Otherwise the communicator is asked to get ready and, once it
    is, the request is posted to it exactly once, in a message that
    carries the active chain id; if the communicator refuses to get ready
    nothing is posted and the request fails with that refusal. *)
Theorem sendTransaction_dispatch env this w tx :
  let result := fst (request env this (eth_sendTransaction tx) w) in
  let w' := snd (request env this (eth_sendTransaction tx) w) in
  let local := is_Some (walletClient w) ∧ is_Some (session this w) in
  (local ↔ ∃ client, client_sendTransaction client tx ∈ trace_since w w')
  ∧ (local → ∃ client,
       walletClient w = Some client
       ∧ trace_since w w' = [client_sendTransaction client tx]
       ∧ result = match walletClient_sendTransaction env client tx with
                  | Ret res => Ret (Some (json_value res))
                  | Throw e => Throw e
                  end)
  ∧ (¬ local →
     (ready (communicator this) = Ret () →
      trace_since w w'
      = [communicator_ready;
         communicator_post RpcSchema (forwarded env this w (eth_sendTransaction tx))]
      ∧ request_chainId (forwarded env this w (eth_sendTransaction tx))
        = chain_id (chain this w))
     ∧ (∀ e, ready (communicator this) = Throw e →
        trace_since w w' = [communicator_ready] ∧ result = Throw e)).
Proof.
  intros result w' local. subst result w' local.
  assert (¬ (is_Some (walletClient w) ∧ is_Some (session this w)) →
          request env this (eth_sendTransaction tx) w
          = forward env this (eth_sendTransaction tx) w) as Hforward.
  { intros Hnot. rewrite request_sendTransaction_run.
    destruct (walletClient w) as [c|]; [| done].
    destruct (session this w) as [s|]; [| done]. destruct Hnot. eauto. }
  destruct (decide (is_Some (walletClient w) ∧ is_Some (session this w)))
    as [[[c Hc] [s Hs]] | Hnot].
  - rewrite request_sendTransaction_run, Hc, Hs. simpl.
    assert (trace_since w (log (client_sendTransaction c tx) w)
            = [client_sendTransaction c tx]) as -> by by apply trace_since_app.
    split; [| split].
    + split; [intros _; exists c; by left | eauto].
    + intros _. by exists c.
    + intros []. eauto.
  - rewrite (Hforward Hnot). split; [| split; [done |]].
    + split; [done |]. intros [client H].
      by apply forward_no_client_event in H.
    + intros _. rewrite forward_trace. split.
      * by intros ->.
      * intros e He. rewrite He. eauto using forward_not_ready.
Qed.

(** C5 as stated fails after a handshake whose chains info misses the
    active chain: the account and its session are persisted, the rebuild
    of the wallet client throws, and the next [eth_sendTransaction], with
    a session but no wallet client, goes to the communicator. *)
Lemma sendTransaction_session_counterexample :
  let '(this, w) := connected [1] (sample_data (Some 1) (Some sample_session) []) in
  let w' := snd (request sample_env this (eth_sendTransaction "tx") w) in
  session this w = Some sample_session
  ∧ walletClient w = None
  ∧ trace_since w w'
    = [communicator_ready;
       communicator_post RpcSchema (forwarded sample_env this w (eth_sendTransaction "tx"))]
  ∧ ¬ ∃ client, client_sendTransaction client "tx" ∈ trace_since w w'.
Proof.
  cbv zeta.
  split; [by vm_compute |]. split; [by vm_compute |]. split; [by vm_compute |].
  intros [client H]. vm_compute in H.
  repeat (apply elem_of_cons in H as [H | H]; [discriminate |]).
  by apply elem_of_nil in H.
Qed.

Lemma request_switch_run env this chainId n w :
  normalized env chainId = Ret n →
  request env this (wallet_switchEthereumChain chainId) w =
  match switchChain this n w with
  | (Ret true, w') => (Ret (Some null), w')
  | (Ret false, w') => forward env this (wallet_switchEthereumChain chainId) w'
  | (Throw e, w') => (Throw e, w')
  end.
Proof.
  intros Hn. unfold request, forward, tryLocalHandling.
  unfold mbind, M_bind, mret, M_ret.
  destruct chainId as [m|hex]; simpl in Hn; [injection Hn as -> | rewrite Hn];
    by destruct (switchChain this n w) as [[[]|e] w'].
Qed.

Lemma switchChain_false this n w :
  fst (switchChain this n w) = Ret false →
  ∃ message, snd (switchChain this n w) = log (console_error message) w.
Proof.
  rewrite switchChain_run.
  destruct (find_chainInfo _ _) as [ci|]; [| eauto].
  destruct (find_chain _ _) as [c|]; [| eauto].
  destruct (_ =? _); [done |].
  unfold mbind, M_bind. rewrite account_set_outcome. cbv zeta.
  by destruct (find_chainInfo _ _).
Qed.

Lemma switchChain_trace this n w :
  Forall (λ ev, is_communicator_event ev = false)
         (trace_since w (snd (switchChain this n w))).
Proof.
  assert (∃ events, trace (snd (switchChain this n w)) = trace w ++ events
                    ∧ Forall (λ ev, is_communicator_event ev = false) events)
    as (events & Ht & Hall); [| by rewrite (trace_since_app _ _ _ Ht)].
  rewrite switchChain_run.
  destruct (find_chainInfo _ _) as [ci|]; [| by eexists [_]; repeat constructor].
  destruct (find_chain _ _) as [c|]; [| by eexists [_]; repeat constructor].
  destruct (_ =? _); [exists []; by rewrite app_nil_r |].
  unfold mbind, M_bind. rewrite account_set_outcome. cbv zeta.
  eexists [_; _; _].
  destruct (find_chainInfo _ _); simpl; rewrite <- !app_assoc; by repeat constructor.
Qed.

(** C6: [request] of [wallet_switchEthereumChain] is decided locally by
    [switchChain], called with the number itself or with the number
    [hexToNumber] makes of a hex string.  When the switch returns [true]
    the request resolves with [null], in the world the switch left and
    with no call to the communicator; when it returns [false] the request
    is forwarded: it continues as [sendRpcRequest] does, and a ready
    communicator gets the request posted once, after the switch's error
    log. *)
Theorem switchEthereumChain_dispatch env this w chainId n :
  normalized env chainId = Ret n →
  let switched := switchChain this n w in
  let outcome := request env this (wallet_switchEthereumChain chainId) w in
  (fst switched = Ret true →
   outcome = (Ret (Some null), snd switched)
   ∧ Forall (λ ev, is_communicator_event ev = false) (trace_since w (snd outcome)))
  ∧ (fst switched = Ret false →
     outcome = forward env this (wallet_switchEthereumChain chainId) (snd switched)
     ∧ (ready (communicator this) = Ret () →
        ∃ message,
          trace_since w (snd outcome)
          = [console_error message; communicator_ready;
             communicator_post RpcSchema
               (forwarded env this w (wallet_switchEthereumChain chainId))])).
Proof.
  intros Hn switched outcome. subst switched outcome.
  rewrite (request_switch_run _ _ _ _ _ Hn).
  pose proof (switchChain_trace this n w) as Htrace.
  pose proof (switchChain_false this n w) as Hfalse.
  destruct (switchChain this n w) as [[[]|e] w']; simpl in *.
  - split; [done | discriminate].
  - split; [discriminate | intros _]. split; [done |].
    destruct (Hfalse eq_refl) as [message ->]. intros Hready. exists message.
    apply trace_since_app. rewrite forward_events, Hready. simpl.
    by rewrite <- app_assoc.
  - split; discriminate.
Qed.

Lemma switchEthereumChain_dispatch_witness :
  let this := fst (connected [1; 10] (sample_data (Some 1) None [1; 10])) in
  let w := snd (connected [1; 10] (sample_data (Some 1) None [1; 10])) in
  normalized sample_env (chainId_string "0xa") = Ret 10
  ∧ fst (switchChain this 10 w) = Ret true
  ∧ request sample_env this (wallet_switchEthereumChain (chainId_string "0xa")) w
    = (Ret (Some null), snd (switchChain this 10 w)).
Proof.
  intros this w.
  assert (fst (switchChain this 10 w) = Ret true) as Hs by by vm_compute.
  pose proof (switchEthereumChain_dispatch sample_env this w
                (chainId_string "0xa") 10 eq_refl) as T.
  cbv zeta in T. destruct T as [T _].
  split; [reflexivity |]. split; [exact Hs |]. exact (proj1 (T Hs)).
Defined.

(** ** Local answers and forwarding *)

Lemma request_unhandled env this r w :
  fst (tryLocalHandling env this r w) = Ret None →
  snd (tryLocalHandling env this r w) = w →
  request env this r w = forward env this r w.
Proof.
  unfold request, forward, mbind at 1, M_bind.
  destruct (tryLocalHandling env this r w) as [o w']. simpl. by intros -> ->.
Qed.

Lemma forward_same_state env this r w :
  same_state w (snd (forward env this r w)).
Proof.
  unfold forward, mbind, M_bind. rewrite sendRpcRequest_run.
  destruct (ready (communicator this)) as [[]|]; [| done]. cbv zeta.
  destruct (postRequestAndWaitForResponse _ _ _) as [resp|]; [| done].
  by destruct (response_error resp).
Qed.

Lemma forward_outcome env this r w :
  fst (forward env this r w) =
  match ready (communicator this) with
  | Throw e => Throw e
  | Ret _ =>
      match postRequestAndWaitForResponse (communicator this) RpcSchema
              (forwarded env this w r) with
      | Throw e => Throw e
      | Ret response =>
          match response_error response with
          | Some error => Throw (Thrown error)
          | None => Ret (response_result response)
          end
      end
  end.
Proof.
  unfold forward, mbind, M_bind. rewrite sendRpcRequest_run.
  destruct (ready (communicator this)) as [[]|]; [| done]. cbv zeta.
  fold (forwarded env this w r).
  destruct (postRequestAndWaitForResponse _ _ _) as [resp|]; [| done].
  by destruct (response_error resp).
Qed.

(** X1: [request] of [eth_accounts] is answered from the account slot: it
    resolves with what [accounts] returns (no address without an account,
    the stored address otherwise) and leaves the world, trace included,
    as it was, so neither the communicator nor a client is called. *)
Theorem eth_accounts_is_answered_locally env this w :
  request env this eth_accounts w = (Ret (Some (addresses_value (accounts this w))), w)
  ∧ (storage_account w = None →
     fst (request env this eth_accounts w) = Ret (Some (addresses_value [])))
  ∧ (∀ a, storage_account w = Some a →
     fst (request env this eth_accounts w)
     = Ret (Some (addresses_value [account_address a]))).
Proof.
  split; [done |]. split.
  - intros H. unfold request, tryLocalHandling, mbind, M_bind, reads, accounts, account, slot_get.
    simpl. by rewrite H.
  - intros a H. unfold request, tryLocalHandling, mbind, M_bind, reads, accounts, account, slot_get.
    simpl. by rewrite H.
Qed.

(** X2: [request] of [wallet_getCapabilities] is answered from the
    cached chains info and leaves the world as it was: it resolves with
    the capabilities of the first entry for the active chain, keyed by the
    active chain id, and throws "Chain info is not set" when there is no
    such entry. *)
Theorem wallet_getCapabilities_reads_the_cache env this w :
  let active := chain_id (chain this w) in
  snd (request env this wallet_getCapabilities w) = w
  ∧ (∀ chainInfo, find_chainInfo (chainsInfo this w) active = Some chainInfo →
     fst (request env this wallet_getCapabilities w)
     = Ret (Some (capabilities_value active (chainInfo_capabilities chainInfo))))
  ∧ (¬ described (chainsInfo this w) active →
     fst (request env this wallet_getCapabilities w)
     = Throw (Error "Chain info is not set")).
Proof.
  intros active. subst active.
  unfold request, tryLocalHandling, mbind, M_bind, reads, mret, M_ret, mthrow, M_throw.
  rewrite <- find_chainInfo_described.
  destruct (find_chainInfo _ _) as [ci|]; simpl.
  - split; [done |]. split; [by intros ? [= <-] | intros []; eauto].
  - split; [done |]. split; [done | done].
Qed.

Lemma request_estimateGas_run env this params w :
  request env this (eth_estimateGas params) w =
  match walletClient w, session this w with
  | Some client, Some _ =>
      (match walletClient_request env client "eth_estimateGas" params with
       | Ret res => Ret (Some (json_value res))
       | Throw e => Throw e
       end, log (client_request client "eth_estimateGas" params) w)
  | _, _ => forward env this (eth_estimateGas params) w
  end.
Proof.
  unfold request, forward, tryLocalHandling, call, emit, modify.
  unfold mbind, M_bind, mret, M_ret, reads.
  destruct (walletClient w) as [c|]; [| done].
  destruct (session this w) as [s|]; [| done].
  by destruct (walletClient_request env c "eth_estimateGas" params).
Qed.

(** X3: [request] of [eth_estimateGas] never writes the persisted slots
    or the wallet client.  With a wallet client and a session it calls the
    client's [request] once, with that method and the same parameters,
    and the client's answer or error is the result; with either missing
    it is forwarded and no client is called. *)
Theorem estimateGas_dispatch env this w params :
  let result := fst (request env this (eth_estimateGas params) w) in
  let w' := snd (request env this (eth_estimateGas params) w) in
  same_state w w'
  ∧ (∀ client s,
       walletClient w = Some client → session this w = Some s →
       trace_since w w' = [client_request client "eth_estimateGas" params]
       ∧ result = match walletClient_request env client "eth_estimateGas" params with
                  | Ret res => Ret (Some (json_value res))
                  | Throw e => Throw e
                  end)
  ∧ (walletClient w = None ∨ session this w = None →
     request env this (eth_estimateGas params) w
     = forward env this (eth_estimateGas params) w
     ∧ ∀ ev, ev ∈ trace_since w w' → is_client_event ev = false).
Proof.
  intros result w'. subst result w'. rewrite request_estimateGas_run.
  destruct (walletClient w) as [c|] eqn:Hc, (session this w) as [s|] eqn:Hs.
  - split; [done |]. split.
    + intros ? ? [= <-] _. split; [by apply trace_since_app | done].
    + by intros [|].
  - split; [apply forward_same_state |]. split; [done |].
    intros _. split; [done | apply forward_no_client_event].
  - split; [apply forward_same_state |]. split; [done |].
    intros _. split; [done | apply forward_no_client_event].
  - split; [apply forward_same_state |]. split; [done |].
    intros _. split; [done | apply forward_no_client_event].
Qed.

(** X4: a method [tryLocalHandling] has no case for is forwarded: no
    client is called and neither the slots nor the wallet client change.
    A ready communicator is posted one message, carrying the request and
    the active chain id and using up one id; when the communicator
    refuses to get ready the request fails with that refusal, nothing is
    posted and no id is used. *)
Theorem other_methods_are_forwarded env this w method params :
  let r := other_method method params in
  let w' := snd (request env this r w) in
  same_state w w'
  ∧ (∀ ev, ev ∈ trace_since w w' → is_client_event ev = false)
  ∧ (ready (communicator this) = Ret () →
     trace_since w w' = [communicator_ready; communicator_post RpcSchema (forwarded env this w r)]
     ∧ request_action (forwarded env this w r) = r
     ∧ request_chainId (forwarded env this w r) = chain_id (chain this w)
     ∧ uuids w' = S (uuids w))
  ∧ (∀ e, ready (communicator this) = Throw e →
     fst (request env this r w) = Throw e
     ∧ trace_since w w' = [communicator_ready]
     ∧ uuids w' = uuids w).
Proof.
  intros r w'. subst r w'.
  change (request env this (other_method method params) w)
    with (forward env this (other_method method params) w).
  split; [apply forward_same_state |].
  split; [apply forward_no_client_event |].
  rewrite forward_trace, forward_outcome.
  split.
  - intros Hr. rewrite Hr. repeat (split; [done |]).
    unfold forward, mbind, M_bind. rewrite sendRpcRequest_run, Hr. cbv zeta.
    destruct (postRequestAndWaitForResponse _ _ _) as [resp|]; [| done].
    by destruct (response_error resp).
  - intros e He. rewrite He. repeat (split; [done |]).
    unfold forward, mbind, M_bind. by rewrite sendRpcRequest_run, He.
Qed.

(** A request that local handling answers with [undefined] is sent on
    from the world local handling left. *)
Lemma request_forwards env this r w w1 :
  tryLocalHandling env this r w = (Ret None, w1) →
  request env this r w = forward env this r w1.
Proof. intros H. unfold request, forward, mbind at 1, M_bind. by rewrite H. Qed.

(** X5: what a forwarded request resolves with, for every request that
    local handling leaves unanswered (whatever its method, and whatever
    local handling did before giving up): content carrying an [error]
    makes it throw that error, whether or not a result comes with it;
    otherwise it resolves with the content's [result], which may be
    absent. *)
Theorem remote_answers_are_unwrapped env this r w w1 response :
  tryLocalHandling env this r w = (Ret None, w1) →
  ready (communicator this) = Ret () →
  postRequestAndWaitForResponse (communicator this) RpcSchema (forwarded env this w1 r)
  = Ret response →
  fst (request env this r w)
  = match response_error response with
    | Some error => Throw (Thrown error)
    | None => Ret (response_result response)
    end.
Proof.
  intros Hlocal Hready Hpost.
  by rewrite (request_forwards _ _ _ _ _ Hlocal), forward_outcome, Hready, Hpost.
Qed.

Lemma remote_answers_are_unwrapped_witness :
  let this := sample_signer 1 [] (refusing "denied") in
  let w := write_account (Some (sample_account 1 (Some sample_session))) empty_world in
  tryLocalHandling sample_env this (eth_sendTransaction "tx") w = (Ret None, w)
  ∧ ready (communicator this) = Ret ()
  ∧ fst (request sample_env this (eth_sendTransaction "tx") w) = Throw (Thrown "denied").
Proof.
  intros this w. split; [reflexivity |]. split; [reflexivity |].
  exact (remote_answers_are_unwrapped sample_env this (eth_sendTransaction "tx") w w
           _ eq_refl eq_refl eq_refl).
Defined.

(** X6: a [wallet_switchEthereumChain] whose chain id is a string that
    [hexToNumber] rejects fails with that error before anything else
    happens: nothing is switched, logged or forwarded. *)
Theorem switchEthereumChain_rejects_bad_hex env this w hex e :
  hexToNumber env hex = Throw e →
  request env this (wallet_switchEthereumChain (chainId_string hex)) w = (Throw e, w).
Proof.
  intros H. unfold request, tryLocalHandling, mbind, M_bind. by rewrite H.
Qed.

Lemma switchEthereumChain_rejects_bad_hex_witness :
  hexToNumber sample_env "0xzz" = Throw (Thrown "SyntaxError")
  ∧ request sample_env (sample_signer 1 [] (refusing "denied"))
      (wallet_switchEthereumChain (chainId_string "0xzz")) empty_world
    = (Throw (Thrown "SyntaxError"), empty_world).
Proof.
  split; [reflexivity |].
  exact (switchEthereumChain_rejects_bad_hex sample_env
           (sample_signer 1 [] (refusing "denied")) empty_world "0xzz" _ eq_refl).
Defined.

Lemma switchChain_storage this n w :
  let w' := snd (switchChain this n w) in
  storage_chainsInfo w' = storage_chainsInfo w
  ∧ (storage_account w' = storage_account w
     ∨ ∃ id, storage_account w' = Some (spread_account (account this w) id)).
Proof.
  intros w'. subst w'. rewrite switchChain_run.
  destruct (find_chainInfo _ n) as [ci|]; [| by split; [| left]].
  destruct (find_chain _ _) as [c|]; [| by split; [| left]].
  destruct (_ =? _); [by split; [| left] |].
  unfold mbind, M_bind. rewrite account_set_outcome. cbv zeta.
  destruct (find_chainInfo _ _); simpl; (split; [done | right; eauto]).
Qed.

Lemma spread_keeps_identity this w a id :
  storage_account w = Some a →
  account_address (spread_account (account this w) id) = account_address a
  ∧ account_session (spread_account (account this w) id) = account_session a.
Proof. intros Ha. unfold account, slot_get. simpl. by rewrite Ha. Qed.

Lemma request_same_state env this r w :
  (∀ chainId, r ≠ wallet_switchEthereumChain chainId) →
  same_state w (snd (request env this r w)).
Proof.
  intros Hr. destruct r as [params|tx|chainId| | |method params].
  - rewrite request_estimateGas_run.
    destruct (walletClient w) as [c|], (session this w) as [s|];
      try apply forward_same_state. by unfold same_state.
  - rewrite request_sendTransaction_run.
    destruct (walletClient w) as [c|], (session this w) as [s|];
      try apply forward_same_state. by unfold same_state.
  - by destruct (Hr chainId).
  - unfold request, tryLocalHandling, mbind, M_bind, reads.
    destruct (find_chainInfo _ _); by unfold same_state.
  - by unfold same_state.
  - apply forward_same_state.
Qed.

Lemma request_switch_storage env this chainId w :
  let w' := snd (request env this (wallet_switchEthereumChain chainId) w) in
  storage_chainsInfo w' = storage_chainsInfo w
  ∧ (storage_account w' = storage_account w
     ∨ ∃ id, storage_account w' = Some (spread_account (account this w) id)).
Proof.
  intros w'. subst w'.
  destruct (normalized env chainId) as [n|e] eqn:Hn.
  - rewrite (request_switch_run _ _ _ _ _ Hn).
    pose proof (switchChain_storage this n w) as Hs. cbv zeta in Hs.
    destruct (switchChain this n w) as [[[]|e] w1]; simpl in *; try done.
    destruct (forward_same_state env this (wallet_switchEthereumChain chainId) w1)
      as (F1 & F2 & _).
    by rewrite F1, F2.
  - assert (request env this (wallet_switchEthereumChain chainId) w = (Throw e, w)) as ->.
    { destruct chainId; simpl in Hn; [discriminate |].
      unfold request, tryLocalHandling, mbind, M_bind. by rewrite Hn. }
    split; [done | by left].
Qed.

(** X7: no request changes the chains info slot, and no request changes
    the address or the session of a stored account; a request other than
    [wallet_switchEthereumChain] leaves the account slot and the wallet
    client exactly as they were. *)
Theorem request_keeps_identity_and_chainsInfo env this r w :
  let w' := snd (request env this r w) in
  storage_chainsInfo w' = storage_chainsInfo w
  ∧ (∀ a, storage_account w = Some a →
       ∃ a', storage_account w' = Some a'
             ∧ account_address a' = account_address a
             ∧ account_session a' = account_session a)
  ∧ ((∀ chainId, r ≠ wallet_switchEthereumChain chainId) → same_state w w').
Proof.
  intros w'. subst w'.
  assert ((∀ chainId, r ≠ wallet_switchEthereumChain chainId)
          ∨ ∃ chainId, r = wallet_switchEthereumChain chainId) as [Hr | [chainId ->]]
    by (destruct r; eauto; by left).
  - destruct (request_same_state env this r w Hr) as (Hacc & Hinfo & Hclient).
    split; [done |]. split; [| done]. intros a Ha. exists a. by rewrite Hacc.
  - destruct (request_switch_storage env this chainId w) as [Hinfo Hacc].
    split; [done |]. split; [| intros Hr; by destruct (Hr chainId)].
    intros a Ha. destruct Hacc as [-> | [id ->]]; [eauto |].
    destruct (spread_keeps_identity this w a id Ha). eauto.
Qed.

(** What a forward adds to the trace: at most one posted message, whose
    id is the next one of [randomUUID], used up with it. *)
Lemma forward_ids env this r w :
  let w' := snd (forward env this r w) in
  ∃ events,
    trace w' = trace w ++ events
    ∧ ((posted_ids events = [] ∧ uuids w' = uuids w)
       ∨ (posted_ids events = [randomUUID env (uuids w)] ∧ uuids w' = S (uuids w))).
Proof.
  intros w'. subst w'. eexists. split; [apply forward_events |].
  unfold forward, mbind, M_bind. rewrite sendRpcRequest_run.
  destruct (ready (communicator this)) as [[]|]; [right | by left]. cbv zeta.
  destruct (postRequestAndWaitForResponse _ _ _) as [resp|]; [| done].
  by destruct (response_error resp).
Qed.

Lemma switchChain_ids this n w :
  let w' := snd (switchChain this n w) in
  ∃ events, trace w' = trace w ++ events ∧ posted_ids events = [] ∧ uuids w' = uuids w.
Proof.
  intros w'. subst w'. rewrite switchChain_run.
  destruct (find_chainInfo _ n) as [ci|]; [| by eexists [_]].
  destruct (find_chain _ _) as [c|]; [| by eexists [_]].
  destruct (_ =? _); [exists []; by rewrite app_nil_r |].
  unfold mbind, M_bind. rewrite account_set_outcome. cbv zeta.
  eexists [_; _; _].
  destruct (find_chainInfo _ _); simpl; by rewrite <- !app_assoc.
Qed.

(** The same for one request of any kind. *)
Lemma request_ids env this r w :
  let w' := snd (request env this r w) in
  ∃ events,
    trace w' = trace w ++ events
    ∧ ((posted_ids events = [] ∧ uuids w' = uuids w)
       ∨ (posted_ids events = [randomUUID env (uuids w)] ∧ uuids w' = S (uuids w))).
Proof.
  intros w'. subst w'.
  assert (∀ o, ∃ events, trace (snd (o, w)) = trace w ++ events
             ∧ ((posted_ids events = []
                 ∧ uuids (snd (o : Outcome (option RpcValue), w)) = uuids w)
                ∨ (posted_ids events = [randomUUID env (uuids w)]
                   ∧ uuids (snd (o, w)) = S (uuids w)))) as Hstay
    by (intros o; exists []; rewrite app_nil_r; by split; [| left]).
  destruct r as [params|tx|chainId| | |method params].
  - rewrite request_estimateGas_run.
    destruct (walletClient w) as [c|], (session this w) as [s|];
      try apply forward_ids. eexists [_]. by split; [| left].
  - rewrite request_sendTransaction_run.
    destruct (walletClient w) as [c|], (session this w) as [s|];
      try apply forward_ids. eexists [_]. by split; [| left].
  - destruct (normalized env chainId) as [n|e] eqn:Hn.
    + rewrite (request_switch_run _ _ _ _ _ Hn).
      destruct (switchChain_ids this n w) as (ev1 & Ht1 & Hp1 & Hu1).
      destruct (switchChain this n w) as [[[]|e] w1]; simpl in Ht1, Hu1.
      * exists ev1. by split; [| left].
      * destruct (forward_ids env this (wallet_switchEthereumChain chainId) w1)
          as (ev2 & Ht2 & Hids).
        exists (ev1 ++ ev2). rewrite Ht2, Ht1, <- app_assoc. split; [done |].
        unfold posted_ids in *. rewrite omap_app, Hp1. simpl. by rewrite Hu1 in Hids.
      * exists ev1. by split; [| left].
    + assert (request env this (wallet_switchEthereumChain chainId) w = (Throw e, w)) as ->.
      { destruct chainId; simpl in Hn; [discriminate |].
        unfold request, tryLocalHandling, mbind, M_bind. by rewrite Hn. }
      apply Hstay.
  - unfold request, tryLocalHandling, mbind, M_bind, reads.
    destruct (find_chainInfo _ _); apply Hstay.
  - apply Hstay.
  - apply forward_ids.
Qed.

Lemma requests_ids env this rs w :
  let w' := requests env this rs w in
  ∃ events,
    trace w' = trace w ++ events
    ∧ uuids w' = (uuids w + length (posted_ids events))%nat
    ∧ (length (posted_ids events) ≤ length rs)%nat
    ∧ posted_ids events = randomUUID env <$> seq (uuids w) (length (posted_ids events)).
Proof.
  revert w. induction rs as [|r rs IH]; intros w w'; subst w'; simpl.
  - exists []. rewrite app_nil_r. simpl. by rewrite Nat.add_0_r.
  - destruct (request_ids env this r w) as (ev1 & Ht1 & Hids).
    destruct (IH (snd (request env this r w))) as (ev2 & Ht2 & Hu2 & Hle & Hp2).
    cbv zeta in Ht2, Hu2.
    set (w1 := snd (request env this r w)) in *.
    set (w2 := requests env this rs w1) in *.
    exists (ev1 ++ ev2). rewrite Ht2, Ht1, <- app_assoc. split; [done |].
    unfold posted_ids in *. rewrite omap_app.
    destruct Hids as [[-> Hu] | [-> Hu]]; rewrite Hu in *; simpl.
    + split; [done |]. split; [lia | done].
    + split; [lia |]. split; [lia |]. f_equal. exact Hp2.
Qed.

(** X8: over any sequence of requests, whatever their kinds and outcomes,
    the messages posted to the communicator carry the successive values
    of [randomUUID], each posted message using up exactly one of them and
    each request posting at most one message; so when [randomUUID] never
    repeats itself, no two of the messages posted carry the same id. *)
Theorem forwarded_requests_get_fresh_ids env this rs w :
  let w' := requests env this rs w in
  let ids := posted_ids (trace_since w w') in
  ids = randomUUID env <$> seq (uuids w) (length ids)
  ∧ uuids w' = (uuids w + length ids)%nat
  ∧ (length ids ≤ length rs)%nat
  ∧ (Inj (=) (=) (randomUUID env) → NoDup ids).
Proof.
  intros w' ids.
  destruct (requests_ids env this rs w) as (events & Ht & Hu & Hle & Hp).
  fold w' in Ht, Hu. subst ids. rewrite (trace_since_app _ _ _ Ht).
  repeat (split; [done |]).
  intros Hinj. rewrite Hp. apply NoDup_fmap_2; [done | apply NoDup_seq].
Qed.

Lemma forwarded_requests_get_fresh_ids_witness :
  let this := sample_signer 1 [] (refusing "denied") in
  let rs := [other_method "eth_chainId" "[]"; eth_accounts; eth_sendTransaction "tx"] in
  let w' := requests sample_env this rs empty_world in
  Inj (=) (=) (randomUUID sample_env)
  ∧ posted_ids (trace_since empty_world w') = ["uuid-0"; "uuid-1"]
  ∧ NoDup (posted_ids (trace_since empty_world w')).
Proof.
  intros this rs w'.
  assert (Inj (=) (=) (randomUUID sample_env)) as Hinj.
  { intros n m H. apply (inj (pretty : nat → string)).
    change (randomUUID sample_env n) with ("uuid-" +:+ pretty n) in H.
    change (randomUUID sample_env m) with ("uuid-" +:+ pretty m) in H.
    by apply (inj (String.app "uuid-")) in H. }
  split; [exact Hinj |]. split; [by vm_compute |].
  pose proof (forwarded_requests_get_fresh_ids sample_env this rs empty_world) as T.
  cbv zeta in T. exact (proj2 (proj2 (proj2 T)) Hinj).
Defined.

(** ** The wallet client *)

(** X9: [getClient] changes nothing and checks the chain before the
    client: an id that is not configured gives "Chain with id ... is not
    supported" even when a wallet client exists; a configured id gives the
    wallet client, which is the same for every configured id asked for,
    or "Wallet client is not created".  No argument, or the id 0, stands
    for the active chain, which is always configured. *)
Theorem getClient_checks_the_chain_then_the_client this parameters w :
  let chainId := js_or parameters (chain_id (chain this w)) in
  snd (getClient this parameters w) = w
  ∧ (¬ configured this chainId →
     fst (getClient this parameters w)
     = Throw (Error ("Chain with id " +:+ pretty chainId +:+ " is not supported")))
  ∧ (configured this chainId →
     fst (getClient this parameters w)
     = match walletClient w with
       | Some client => Ret client
       | None => Throw (Error "Wallet client is not created")
       end)
  ∧ (parameters = None ∨ parameters = Some 0 → configured this chainId).
Proof.
  intros chainId. subst chainId. rewrite <- !find_chain_configured.
  unfold getClient, mbind, M_bind, reads, mret, M_ret, mthrow, M_throw.
  split; [| split; [| split]].
  - destruct (find_chain _ _); [by destruct (walletClient w) | done].
  - destruct (find_chain _ _); [intros []; eauto | done].
  - destruct (find_chain _ _); [by destruct (walletClient w) | by intros [? ?]].
  - intros [-> | ->]; simpl; rewrite find_chain_active; eauto.
Qed.

(** X10: [createWalletClient] writes nothing but the [walletClient]
    field.  It throws "Account is not set" exactly when no account is
    stored, and the chain info error exactly when an account is stored
    and the chains info has no entry for the active chain; a throw leaves
    the world as it was.  When it returns there is a wallet client exactly
    when the account has a session, and that client has the account's
    address, the active chain, that chain's configured transport or
    [http], and the contracts of the active chain's entry. *)
Theorem createWalletClient_postcondition this w :
  let result := fst (createWalletClient this w) in
  let w' := snd (createWalletClient this w) in
  let active := chain this w in
  storage_account w' = storage_account w
  ∧ storage_chainsInfo w' = storage_chainsInfo w
  ∧ trace w' = trace w
  ∧ (result = Throw (Error "Account is not set") ↔ storage_account w = None)
  ∧ (result = Throw (Error "Chain info for [object Object] wasn't set during handshake")
     ↔ is_Some (storage_account w) ∧ ¬ described (chainsInfo this w) (chain_id active))
  ∧ (∀ e, result = Throw e → w' = w)
  ∧ (result = Ret () →
     (is_Some (walletClient w') ↔ is_Some (session this w))
     ∧ ∀ client, walletClient w' = Some client →
         client_address client = account this w ≫= account_address
         ∧ client_chain client = active
         ∧ client_transport client = default http (transports this !! chain_id active)
         ∧ ∃ chainInfo,
             find_chainInfo (chainsInfo this w) (chain_id active) = Some chainInfo
             ∧ client_contracts client = chainInfo_contracts chainInfo).
Proof.
  intros result w' active. subst result w' active.
  rewrite <- find_chainInfo_described, createWalletClient_run.
  assert (account this w = None ↔ storage_account w = None) as Hnone.
  { unfold account, slot_get. simpl. by destruct (storage_account w). }
  destruct (account this w) as [a|] eqn:Ha.
  2: { simpl. repeat (split; [done |]).
       split; [by rewrite <- Hnone |].
       split; [split; [done |] |].
       - intros [[a Hs] _]. assert (storage_account w = None) by by apply Hnone. congruence.
       - split; [done | done]. }
  assert (is_Some (storage_account w)) as Hsome.
  { destruct (storage_account w) eqn:E; [eauto |]. by assert (Some a = None) by by apply Hnone. }
  destruct (find_chainInfo _ _) as [ci|] eqn:Hci; simpl.
  - repeat (split; [done |]).
    split; [split; [done | intros E; rewrite E in Hsome; by destruct Hsome] |].
    split; [split; [done | intros [_ []]; eauto] |].
    split; [done |]. intros _.
    unfold walletClient_for. destruct (session this w) as [s|]; simpl.
    + split; [split; eauto |]. intros c [= <-]. simpl.
      rewrite Ha. repeat (split; [done |]). eauto.
    + split; [split; by intros [? ?] | done].
  - repeat (split; [done |]).
    split; [split; [done | intros E; rewrite E in Hsome; by destruct Hsome] |].
    split; [split; [intros _; split; [done | by intros [? ?]] | done] |].
    split; [done | done].
Qed.

(** ** Switching, disconnecting, constructing *)

(** A switch to a described, configured, nonzero chain other than the
    active one, whatever the account slot holds. *)
Lemma switchChain_switches this w c ci chainId :
  find_chain this chainId = Some c →
  find_chainInfo (chainsInfo this w) chainId = Some ci →
  chainId ≠ 0 →
  chainId ≠ chain_id (chain this w) →
  let stored := spread_account (account this w) chainId in
  switchChain this chainId w
  = (Ret true,
     with_walletClient
       (s ← account_session stored;
        Some {| client_address := account_address stored;
                client_sessionKey := session_sessionKey s;
                client_sessionConfig := session_sessionConfig s;
                client_contracts := chainInfo_contracts ci;
                client_chain := c;
                client_transport := default http (transports this !! chainId) |})
       (account_written stored w)).
Proof.
  intros Hc Hci H0 Hne stored.
  assert (chain_id c = chainId) as Hid by eauto using find_chain_id.
  rewrite switchChain_run, Hci, Hc, Hid.
  apply Z.eqb_neq in Hne as ->.
  unfold mbind, M_bind. rewrite account_set_outcome. cbv zeta. fold stored.
  assert (resolved_id this (Some stored) = chainId) as Hres.
  { subst stored. rewrite <- Hid. apply resolved_id_spread; by rewrite Hid. }
  rewrite Hres, Hci. simpl. f_equal. f_equal.
  assert (chain this (account_written stored w) = c) as Hchain.
  { pose proof (find_chain_active this (account_written stored w)) as Hf.
    rewrite chain_id_account_written, Hres, Hc in Hf. congruence. }
  unfold walletClient_for. rewrite Hchain, Hid.
  assert (session this (account_written stored w) = account_session stored) as ->
    by done.
  assert (account this (account_written stored w) ≫= account_address
          = account_address stored) as -> by done.
  done.
Qed.

(** X11: switching a stored account to another chain that is
    configured, described and not 0 keeps its address and session, stores
    the new id, leaves the chains info alone, tells the listener the
    accounts and then the new chain id, and rebuilds the wallet client
    for the new chain: with the new chain's contracts and transport when
    the account has a session, none otherwise. *)
Theorem switchChain_rebinds_the_session_client this w a c ci chainId :
  storage_account w = Some a →
  find_chain this chainId = Some c →
  find_chainInfo (chainsInfo this w) chainId = Some ci →
  chainId ≠ 0 →
  chainId ≠ chain_id (chain this w) →
  let w' := snd (switchChain this chainId w) in
  fst (switchChain this chainId w) = Ret true
  ∧ storage_account w'
    = Some {| account_address := account_address a;
              account_activeChainId := chainId;
              account_session := account_session a |}
  ∧ storage_chainsInfo w' = storage_chainsInfo w
  ∧ trace_since w w'
    = [storage_write "account"; onAccountsUpdate [account_address a];
       onChainUpdate chainId]
  ∧ walletClient w'
    = (s ← account_session a;
       Some {| client_address := account_address a;
               client_sessionKey := session_sessionKey s;
               client_sessionConfig := session_sessionConfig s;
               client_contracts := chainInfo_contracts ci;
               client_chain := c;
               client_transport := default http (transports this !! chainId) |}).
Proof.
  intros Ha Hc Hci H0 Hne w'. subst w'.
  rewrite (switchChain_switches _ _ _ _ _ Hc Hci H0 Hne). cbv zeta.
  assert (account this w
          = Some {| account_address := account_address a;
                    account_activeChainId := resolved_id this (Some a);
                    account_session := account_session a |}) as ->
    by (unfold account, slot_get; simpl; by rewrite Ha).
  simpl. repeat (split; [done |]). split; [| done].
  apply trace_since_app. simpl. by rewrite <- !app_assoc.
Qed.

Lemma switchChain_rebinds_the_session_client_witness :
  let this := fst (connected [1; 10] (sample_data (Some 1) (Some sample_session) [1; 10])) in
  let w := snd (connected [1; 10] (sample_data (Some 1) (Some sample_session) [1; 10])) in
  let w' := snd (switchChain this 10 w) in
  storage_account w = Some (sample_account 1 (Some sample_session))
  ∧ 10 ≠ chain_id (chain this w)
  ∧ storage_account w' = Some (sample_account 10 (Some sample_session))
  ∧ client_contracts <$> walletClient w' = Some (chainInfo_contracts (sample_info 10)).
Proof.
  intros this w w'.
  assert (storage_account w = Some (sample_account 1 (Some sample_session))) as Ha
    by (vm_compute; reflexivity).
  assert (find_chain this 10 = Some (sample_chain 10)) as Hc by (vm_compute; reflexivity).
  assert (find_chainInfo (chainsInfo this w) 10 = Some (sample_info 10)) as Hci
    by (vm_compute; reflexivity).
  assert (10 ≠ 0) as H0 by lia.
  assert (10 ≠ chain_id (chain this w)) as Hne by (vm_compute; discriminate).
  pose proof (switchChain_rebinds_the_session_client this w _ _ _ 10 Ha Hc Hci H0 Hne) as T.
  cbv zeta in T. destruct T as (_ & T2 & _ & _ & T5).
  split; [exact Ha |]. split; [exact Hne |]. split; [exact T2 |].
  subst w'. by rewrite T5.
Defined.

(** X12: [switchChain] spreads [this.account!] without checking it.
    With no account stored but chains info cached, a switch to a chain
    that is configured, described, not 0 and not the first chain returns
    [true] and stores an account that has no address and no session: the
    listener is told an accounts list holding [undefined], and [accounts]
    returns that list from then on. *)
Theorem switchChain_without_account_stores_no_address this w c ci chainId :
  storage_account w = None →
  find_chain this chainId = Some c →
  find_chainInfo (chainsInfo this w) chainId = Some ci →
  chainId ≠ 0 →
  chainId ≠ chain_id (firstChain this) →
  let w' := snd (switchChain this chainId w) in
  fst (switchChain this chainId w) = Ret true
  ∧ storage_account w'
    = Some {| account_address := None;
              account_activeChainId := chainId;
              account_session := None |}
  ∧ accounts this w' = [None]
  ∧ onAccountsUpdate [None] ∈ trace_since w w'
  ∧ walletClient w' = None.
Proof.
  intros Ha Hc Hci H0 Hne w'. subst w'.
  assert (account this w = None) as Hacc
    by (unfold account, slot_get; simpl; by rewrite Ha).
  assert (chainId ≠ chain_id (chain this w)) as Hne'.
  { rewrite chain_id_resolved, Ha. done. }
  rewrite (switchChain_switches _ _ _ _ _ Hc Hci H0 Hne'). cbv zeta. rewrite Hacc.
  simpl. repeat (split; [done |]). split; [| done].
  assert (trace_since w (with_walletClient None
            (account_written (spread_account None chainId) w))
          = [storage_write "account"; onAccountsUpdate [None]; onChainUpdate chainId])
    as -> by (apply trace_since_app; simpl; by rewrite <- !app_assoc).
  right. by left.
Qed.

Lemma switchChain_without_account_stores_no_address_witness :
  let this := sample_signer 1 [10] (refusing "denied") in
  let w := write_chainsInfo [sample_info 1; sample_info 10] empty_world in
  storage_account w = None
  ∧ 10 ≠ chain_id (firstChain this)
  ∧ fst (switchChain this 10 w) = Ret true
  ∧ accounts this (snd (switchChain this 10 w)) = [None].
Proof.
  intros this w.
  assert (10 ≠ 0) as H0 by lia.
  assert (10 ≠ chain_id (firstChain this)) as Hne by (simpl; lia).
  pose proof (switchChain_without_account_stores_no_address this w
                (sample_chain 10) (sample_info 10) 10 eq_refl eq_refl eq_refl H0 Hne) as T.
  cbv zeta in T. destruct T as (T1 & _ & T3 & _).
  split; [reflexivity |]. split; [exact Hne |]. split; [exact T1 | exact T3].
Defined.

(** X13: after [disconnect] the active chain is the first configured
    chain and there is no session; every [switchChain] returns [false]
    and changes nothing, since no chain is described any more; the
    listener has been told the empty accounts list between the two slot
    writes; and disconnecting again changes no slot. *)
Theorem disconnect_returns_to_the_first_chain this w :
  let w' := snd (disconnect this w) in
  chain this w' = firstChain this
  ∧ session this w' = None
  ∧ (∀ chainId, fst (switchChain this chainId w') = Ret false
                ∧ same_state w' (snd (switchChain this chainId w')))
  ∧ trace_since w w'
    = [storage_write "account"; onAccountsUpdate []; storage_write "chainsInfo"]
  ∧ same_state w' (snd (disconnect this w')).
Proof.
  intros w'. subst w'. unfold disconnect. rewrite !clearState_run.
  cbn [fst snd].
  split; [| split; [| split; [| split]]].
  - apply chain_first. by rewrite chain_id_resolved.
  - done.
  - intros chainId. by rewrite switchChain_run.
  - apply trace_since_app. simpl. by rewrite <- !app_assoc.
  - done.
Qed.

(** X14: constructing a Signer never tells the listener anything unless
    it has to clear the state.  On storage without an account it only
    resets the wallet client; on storage whose account resolves to a
    described chain it leaves both slots and the trace as they were and
    rebuilds the wallet client from the stored session and that chain's
    entry (none when the account has no session). *)
Theorem constructor_resumes_or_starts_clean params chain0 others w :
  params_chains params = chain0 :: others →
  let this := assign_fields params chain0 others in
  let w' := snd (constructor params w) in
  (storage_account w = None → w' = with_walletClient None w)
  ∧ (∀ a chainInfo,
       storage_account w = Some a →
       find_chainInfo (storage_chainsInfo w) (chain_id (chain this w)) = Some chainInfo →
       storage_account w' = Some a
       ∧ storage_chainsInfo w' = storage_chainsInfo w
       ∧ trace w' = trace w
       ∧ walletClient w'
         = (s ← account_session a;
            Some {| client_address := account_address a;
                    client_sessionKey := session_sessionKey s;
                    client_sessionConfig := session_sessionConfig s;
                    client_contracts := chainInfo_contracts chainInfo;
                    client_chain := chain this w;
                    client_transport :=
                      default http (transports this !! chain_id (chain this w)) |})).
Proof.
  intros Hc this w'. subst w'. rewrite (constructor_run _ _ _ _ Hc). cbv zeta. fold this.
  split.
  - intros Ha. assert (account this w = None) as ->
      by (unfold account, slot_get; simpl; by rewrite Ha). done.
  - intros a ci Ha Hci.
    assert (account this w
            = Some {| account_address := account_address a;
                      account_activeChainId := resolved_id this (Some a);
                      account_session := account_session a |}) as Hacc
      by (unfold account, slot_get; simpl; by rewrite Ha).
    rewrite Hacc, createWalletClient_run.
    change (account this (with_walletClient None w)) with (account this w).
    change (chain this (with_walletClient None w)) with (chain this w).
    change (chainsInfo this (with_walletClient None w)) with (storage_chainsInfo w).
    rewrite Hacc, Hci.
    simpl. repeat (split; [done |]).
    unfold walletClient_for, session.
    change (account this (with_walletClient None w)) with (account this w).
    change (chain this (with_walletClient None w)) with (chain this w).
    rewrite Hacc. simpl. by destruct (account_session a).
Qed.

Lemma constructor_resumes_or_starts_clean_witness :
  let params := sample_params [1] (sample_data None None []) in
  let w := write_chainsInfo [sample_info 1]
             (write_account (Some (sample_account 1 (Some sample_session))) empty_world) in
  let w' := snd (constructor params w) in
  params_chains params = [sample_chain 1]
  ∧ storage_account w' = Some (sample_account 1 (Some sample_session))
  ∧ trace w' = []
  ∧ client_contracts <$> walletClient w' = Some (chainInfo_contracts (sample_info 1)).
Proof.
  intros params w w'.
  pose proof (constructor_resumes_or_starts_clean params (sample_chain 1) [] w eq_refl) as T.
  cbv zeta in T. destruct T as [_ T].
  destruct (T (sample_account 1 (Some sample_session)) (sample_info 1) eq_refl eq_refl)
    as (T1 & _ & T3 & T4).
  split; [reflexivity |]. split; [exact T1 |]. split; [exact T3 |].
  subst w'. by rewrite T4.
Defined.

(** ** More on the handshake *)

Lemma handshake_message env this w :
  Build_RPCRequestMessage AuthServerRpcSchema
    (randomUUID env (uuids (announced this w)))
    (eth_requestAccounts (handshake_metadata this) (handshake_sessionPreferences this))
    (chain_id (chain this (announced this w)))
  = handshake_request env this w.
Proof. unfold announced, handshake_request. by ask_providers this. Qed.

Lemma announced_same_state this w : same_state w (announced this w).
Proof. unfold announced, same_state. by ask_providers this. Qed.

Lemma posted_events {s} (m : RPCRequestMessage s) this w :
  trace (posted m (announced this w))
  = trace w ++ provider_errors this ++ [communicator_ready; communicator_post s m].
Proof. simpl. rewrite announced_trace. by rewrite <- !app_assoc. Qed.

(** What a handshake that is not delivered does. *)
Lemma handshake_undelivered env this w :
  (∀ data, ¬ delivers env this w data) →
  let w' := snd (handshake env this w) in
  (∃ e, fst (handshake env this w) = Throw e)
  ∧ same_state w w'
  ∧ trace_since w w'
    = provider_errors this ++ communicator_ready ::
      (if ready (communicator this) is Ret _
       then [communicator_post AuthServerRpcSchema (handshake_request env this w)]
       else []).
Proof.
  intros Hnot w'. subst w'.
  pose proof (handshake_run env this w) as Hrun. unfold mbind at 1, M_bind in Hrun.
  rewrite sendRpcRequest_run, handshake_message in Hrun.
  pose proof (announced_same_state this w) as Hsame.
  destruct (ready (communicator this)) as [[]|e] eqn:Hready.
  2: { rewrite Hrun. simpl. split; [eauto |]. split; [exact Hsame |].
       apply trace_since_app. simpl. rewrite announced_trace. by rewrite <- app_assoc. }
  cbv zeta in Hrun.
  destruct (postRequestAndWaitForResponse _ _ _) as [[id res err]|e] eqn:Hpost.
  2: { rewrite Hrun. simpl. split; [eauto |]. split; [exact Hsame |].
       apply trace_since_app, posted_events. }
  destruct err as [err|]; simpl in Hrun.
  { rewrite Hrun. simpl. split; [eauto |]. split; [exact Hsame |].
    apply trace_since_app, posted_events. }
  destruct res as [data|]; simpl in Hrun.
  { destruct (Hnot data). split; [done | eauto]. }
  rewrite Hrun. simpl. split; [eauto |]. split; [exact Hsame |].
  apply trace_since_app, posted_events.
Qed.

(** X15: a handshake whose response is not delivered (the communicator
    refuses to get ready or rejects the request, or the content carries
    an error or no result) rejects and persists nothing: both slots and
    the wallet client are as before, no slot is written and the listener
    is told nothing. *)
Theorem handshake_failure_persists_nothing env this w :
  (∀ data, ¬ delivers env this w data) →
  let w' := snd (handshake env this w) in
  (∃ e, fst (handshake env this w) = Throw e)
  ∧ storage_account w' = storage_account w
  ∧ storage_chainsInfo w' = storage_chainsInfo w
  ∧ walletClient w' = walletClient w
  ∧ writes (trace_since w w') = []
  ∧ filter is_listener_event (trace_since w w') = [].
Proof.
  intros H w'. subst w'.
  destruct (handshake_undelivered _ _ _ H) as (He & (H1 & H2 & H3) & Ht).
  repeat (split; [done |]). rewrite Ht. unfold provider_errors.
  split; ask_providers this; by destruct (ready (communicator this)).
Qed.

Lemma handshake_failure_persists_nothing_witness :
  let this := sample_signer 1 [] blocked in
  let w := write_account (Some (sample_account 1 None)) empty_world in
  (∀ data, ¬ delivers sample_env this w data)
  ∧ fst (handshake sample_env this w) = Throw (Thrown "popup blocked")
  ∧ storage_account (snd (handshake sample_env this w)) = storage_account w.
Proof.
  intros this w.
  assert (∀ data, ¬ delivers sample_env this w data) as H
    by (intros data [Hready _]; discriminate).
  pose proof (handshake_failure_persists_nothing sample_env this w H) as T.
  cbv zeta in T. destruct T as (_ & T2 & _).
  split; [exact H |]. split; [reflexivity | exact T2].
Defined.

(** X16: which error a failed handshake rejects with: the communicator's
    own when it refuses to get ready or rejects the request, the carried
    error when the content is error-shaped, and a TypeError when the
    content has neither an error nor a result. *)
Theorem handshake_rejects_with_the_communicator env this w :
  (∀ e, ready (communicator this) = Throw e → fst (handshake env this w) = Throw e)
  ∧ (ready (communicator this) = Ret () →
     (∀ e, postRequestAndWaitForResponse (communicator this) AuthServerRpcSchema
             (handshake_request env this w) = Throw e →
           fst (handshake env this w) = Throw e)
     ∧ (∀ response error,
          postRequestAndWaitForResponse (communicator this) AuthServerRpcSchema
            (handshake_request env this w) = Ret response →
          response_error response = Some error →
          fst (handshake env this w) = Throw (Thrown error))
     ∧ (∀ response,
          postRequestAndWaitForResponse (communicator this) AuthServerRpcSchema
            (handshake_request env this w) = Ret response →
          response_error response = None → response_result response = None →
          fst (handshake env this w)
          = Throw (TypeError "Cannot read properties of undefined (reading 'chainsInfo')"))).
Proof.
  pose proof (handshake_run env this w) as Hrun. unfold mbind at 1, M_bind in Hrun.
  rewrite sendRpcRequest_run, handshake_message in Hrun. rewrite Hrun. clear Hrun.
  split.
  - by intros e ->.
  - intros ->. cbv zeta. split; [| split].
    + by intros e ->.
    + intros response error -> Herr. by rewrite Herr.
    + intros response -> Herr Hres. rewrite Herr. simpl. by rewrite Hres.
Qed.

(** X17: the providers cannot make a handshake fail.  With a ready
    communicator the request is posted whatever they do, after one console
    error for each provider that threw; a throwing metadata provider
    makes the request carry the metadata named "Unknown DApp" with no
    icon, a throwing or absent session provider makes it carry no session
    preferences, and providers that answer are passed on as they are with
    nothing logged. *)
Theorem handshake_survives_failing_providers env this w :
  ready (communicator this) = Ret () →
  let sent := communicator_post AuthServerRpcSchema (handshake_request env this w) in
  (∃ rest, trace_since w (snd (handshake env this w))
           = provider_errors this ++ [communicator_ready; sent] ++ rest)
  ∧ (∀ e, getMetadata this = Throw e →
       ∃ preferences,
         request_action (handshake_request env this w)
         = eth_requestAccounts
             {| metadata_name := "Unknown DApp"; metadata_icon := None |} preferences
         ∧ console_error "Failed to get website metadata. Proceeding with default one."
           ∈ provider_errors this)
  ∧ (∀ e, sessionParameters this = Some (Throw e) →
       ∃ metadata,
         request_action (handshake_request env this w) = eth_requestAccounts metadata None
         ∧ console_error "Failed to get session data. Proceeding connection with no session."
           ∈ provider_errors this)
  ∧ (sessionParameters this = None →
       ∃ metadata,
         request_action (handshake_request env this w) = eth_requestAccounts metadata None)
  ∧ (∀ metadata preferences,
       getMetadata this = Ret metadata → sessionParameters this = Some (Ret preferences) →
       request_action (handshake_request env this w)
       = eth_requestAccounts metadata (Some preferences)
       ∧ provider_errors this = []).
Proof.
  intros Hready sent. subst sent. split; [| split; [| split; [| split]]].
  - destruct (postRequestAndWaitForResponse (communicator this) AuthServerRpcSchema
                (handshake_request env this w)) as [[id [data|] [err|]]|e] eqn:Hpost.
    2: { assert (delivers env this w data) as H by (split; [done | eauto]).
         destruct (handshake_delivered_state _ _ _ _ H) as (_ & _ & ->).
         rewrite <- app_assoc. eauto. }
    all: assert (∀ d, ¬ delivers env this w d) as H
           by (intros d [_ [id' H']]; congruence).
    all: destruct (handshake_undelivered _ _ _ H) as (_ & _ & ->); rewrite Hready;
      exists []; by rewrite app_nil_r.
  - intros e He. unfold handshake_request, handshake_metadata, provider_errors.
    rewrite He. simpl. eexists. split; [done | by left].
  - intros e He. unfold handshake_request, handshake_sessionPreferences, provider_errors.
    rewrite He. simpl. eexists. split; [done |].
    apply elem_of_app. right. by left.
  - intros He. unfold handshake_request, handshake_sessionPreferences. rewrite He.
    simpl. eauto.
  - intros m p Hm Hp.
    unfold handshake_request, handshake_metadata, handshake_sessionPreferences,
      provider_errors. by rewrite Hm, Hp.
Qed.

Lemma handshake_survives_failing_providers_witness :
  let this := with_failing_providers
                (sample_signer 1 [] (answering (sample_data None None [1]))) in
  ready (communicator this) = Ret ()
  ∧ request_action (handshake_request sample_env this empty_world)
    = eth_requestAccounts {| metadata_name := "Unknown DApp"; metadata_icon := None |} None
  ∧ fst (handshake sample_env this empty_world) = Ret [Some sample_address].
Proof.
  intros this.
  pose proof (handshake_survives_failing_providers sample_env this empty_world eq_refl) as T.
  cbv zeta in T. destruct T as (_ & T2 & _).
  destruct (T2 _ eq_refl) as (preferences & T3 & _).
  split; [reflexivity |]. split; [reflexivity | by vm_compute].
Defined.

(** The wallet client a delivered handshake leaves. *)
Lemma handshake_delivered_walletClient env this w data :
  delivers env this w data →
  let w' := snd (handshake env this w) in
  match find_chainInfo (handshake_chainsInfo data) (chain_id (chain this w')) with
  | Some chainInfo =>
      fst (handshake env this w)
      = Ret [Some (handshake_address (handshake_account data))]
      ∧ walletClient w'
        = (s ← handshake_session (handshake_account data);
           Some {| client_address := Some (handshake_address (handshake_account data));
                   client_sessionKey := session_sessionKey s;
                   client_sessionConfig := session_sessionConfig s;
                   client_contracts := chainInfo_contracts chainInfo;
                   client_chain := chain this w';
                   client_transport :=
                     default http (transports this !! chain_id (chain this w')) |})
  | None =>
      fst (handshake env this w)
      = Throw (Error "Chain info for [object Object] wasn't set during handshake")
      ∧ walletClient w' = walletClient w
  end.
Proof.
  intros H w'.
  destruct (handshake_delivered_state _ _ _ _ H) as (Hacc & _ & _). cbv zeta in Hacc.
  set (w0 := log (storage_write "chainsInfo")
               (write_chainsInfo (handshake_chainsInfo data)
                  (posted (handshake_request env this w) (announced this w)))).
  set (stored := handshake_stored this w data) in *.
  assert (chain this w' = chain this (account_written stored w0)) as Hchain
    by (apply chain_ext; subst w'; by rewrite Hacc).
  rewrite Hchain. subst w'. rewrite (handshake_delivered _ _ _ _ H). cbv zeta.
  fold stored w0. rewrite <- (chain_id_account_written this stored w0).
  destruct (find_chainInfo _ _) as [ci|]; simpl.
  - split; [done |]. unfold walletClient_for, session, account, slot_get. simpl.
    by destruct (handshake_session (handshake_account data)).
  - split; [done |]. apply walletClient_announced.
Qed.

(** X18: a delivered handshake replaces the whole account: the stored
    record has the response's address and session (a session stored
    before does not survive a response without one) and, as chain id, the
    response's id or, without one, the id of the chain active before.
    The listener is told that address and then that stored id, which for
    an id that is not configured is not the id of the chain that is
    active afterwards. *)
Theorem handshake_replaces_the_account env this w data :
  delivers env this w data →
  let w' := snd (handshake env this w) in
  let response := handshake_account data in
  storage_account w'
  = Some {| account_address := Some (handshake_address response);
            account_activeChainId :=
              js_or (handshake_activeChainId response) (chain_id (chain this w));
            account_session := handshake_session response |}
  ∧ session this w' = handshake_session response
  ∧ filter is_listener_event (trace_since w w')
    = [onAccountsUpdate [Some (handshake_address response)];
       onChainUpdate (js_or (handshake_activeChainId response) (chain_id (chain this w)))]
  ∧ (∀ n, handshake_activeChainId response = Some n → n ≠ 0 → ¬ configured this n →
       onChainUpdate n ∈ trace_since w w' ∧ chain_id (chain this w') ≠ n).
Proof.
  intros H w' response. subst w'.
  destruct (handshake_delivered_state _ _ _ _ H) as (Hacc & _ & Htrace).
  cbv zeta in Hacc, Htrace. fold response in Hacc, Htrace.
  split; [exact Hacc |]. split; [| split].
  - unfold session, account, slot_get. simpl. by rewrite Hacc.
  - rewrite Htrace. rewrite !filter_app. unfold provider_errors.
    by ask_providers this.
  - intros n Hn H0 Hnot. split.
    + rewrite Htrace. unfold handshake_stored. fold response. rewrite Hn. simpl.
      apply Z.eqb_neq in H0 as ->.
      rewrite !elem_of_app, !elem_of_cons. naive_solver.
    + intros E. apply Hnot. rewrite <- E. apply chain_configured.
Qed.

Lemma handshake_replaces_the_account_witness :
  let data := sample_data (Some 999) None [1] in
  let this := sample_signer 1 [] (answering data) in
  let w := write_account (Some (sample_account 1 (Some sample_session))) empty_world in
  delivers sample_env this w data
  ∧ session this (snd (handshake sample_env this w)) = None
  ∧ onChainUpdate 999 ∈ trace_since w (snd (handshake sample_env this w))
  ∧ chain_id (chain this (snd (handshake sample_env this w))) ≠ 999.
Proof.
  intros data this w.
  assert (delivers sample_env this w data) as H
    by (split; [reflexivity | eexists; reflexivity]).
  assert (¬ configured this 999) as Hnot.
  { rewrite <- find_chain_configured. vm_compute. by intros [? ?]. }
  pose proof (handshake_replaces_the_account sample_env this w data H) as T.
  cbv zeta in T. destruct T as (_ & T2 & _ & T4).
  assert (999 ≠ 0) as H0 by lia.
  destruct (T4 999 eq_refl H0 Hnot) as [T5 T6].
  split; [exact H |]. split; [exact T2 |]. split; [exact T5 | exact T6].
Defined.

(** X19: after a delivered handshake that brings a session and describes
    the active chain, [getClient()] returns a client with the response's
    address and session key and the contracts of the response's entry for
    the active chain, and [eth_sendTransaction] is sent by that client,
    once, its answer or error being the result. *)
Theorem handshake_with_session_enables_local_sending env this w data s tx :
  delivers env this w data →
  handshake_session (handshake_account data) = Some s →
  let w' := snd (handshake env this w) in
  ∀ chainInfo,
    find_chainInfo (handshake_chainsInfo data) (chain_id (chain this w')) = Some chainInfo →
    let client :=
      {| client_address := Some (handshake_address (handshake_account data));
         client_sessionKey := session_sessionKey s;
         client_sessionConfig := session_sessionConfig s;
         client_contracts := chainInfo_contracts chainInfo;
         client_chain := chain this w';
         client_transport := default http (transports this !! chain_id (chain this w')) |} in
    fst (getClient this None w') = Ret client
    ∧ trace_since w' (snd (request env this (eth_sendTransaction tx) w'))
      = [client_sendTransaction client tx]
    ∧ fst (request env this (eth_sendTransaction tx) w')
      = match walletClient_sendTransaction env client tx with
        | Ret res => Ret (Some (json_value res))
        | Throw e => Throw e
        end.
Proof.
  intros H Hs w' ci Hci client.
  pose proof (handshake_delivered_walletClient _ _ _ _ H) as Hw.
  cbv zeta in Hw. fold w' in Hw. rewrite Hci, Hs in Hw. destruct Hw as [_ Hw].
  simpl in Hw. fold client in Hw.
  assert (session this w' = Some s) as Hsession.
  { destruct (handshake_delivered_state _ _ _ _ H) as (Hacc & _ & _). cbv zeta in Hacc.
    unfold session, account, slot_get. simpl. unfold w'. by rewrite Hacc. }
  split.
  - unfold getClient, mbind, M_bind, reads. simpl. rewrite find_chain_active. simpl.
    by rewrite Hw.
  - rewrite request_sendTransaction_run, Hw, Hsession. simpl.
    split; [by apply trace_since_app | done].
Qed.

Lemma handshake_with_session_enables_local_sending_witness :
  let data := sample_data (Some 10) (Some sample_session) [1; 10] in
  let this := sample_signer 1 [10] (answering data) in
  let w' := snd (handshake sample_env this empty_world) in
  delivers sample_env this empty_world data
  ∧ fst (request sample_env this (eth_sendTransaction "tx") w')
    = Ret (Some (json_value "0xhash"))
  ∧ ∃ client, fst (getClient this None w') = Ret client
              ∧ client_contracts client = chainInfo_contracts (sample_info 10).
Proof.
  intros data this w'.
  assert (delivers sample_env this empty_world data) as H
    by (split; [reflexivity | eexists; reflexivity]).
  pose proof (handshake_with_session_enables_local_sending sample_env this empty_world
                data sample_session "tx" H eq_refl) as T.
  cbv zeta in T.
  assert (find_chainInfo (handshake_chainsInfo data)
            (chain_id (chain this (snd (handshake sample_env this empty_world))))
          = Some (sample_info 10)) as Hci by (vm_compute; reflexivity).
  destruct (T (sample_info 10) Hci) as (T1 & _ & T3).
  split; [exact H |]. split; [exact T3 |]. eexists. split; [exact T1 | reflexivity].
Defined.

(** X20: after a delivered handshake that brings no session and
    describes the active chain there is no wallet client: [getClient()]
    throws "Wallet client is not created" and [eth_sendTransaction] goes
    to the communicator. *)
Theorem handshake_without_session_leaves_sending_remote env this w data tx :
  delivers env this w data →
  handshake_session (handshake_account data) = None →
  let w' := snd (handshake env this w) in
  described (handshake_chainsInfo data) (chain_id (chain this w')) →
  walletClient w' = None
  ∧ fst (getClient this None w') = Throw (Error "Wallet client is not created")
  ∧ request env this (eth_sendTransaction tx) w' = forward env this (eth_sendTransaction tx) w'.
Proof.
  intros H Hs w' Hd.
  pose proof (handshake_delivered_walletClient _ _ _ _ H) as Hw.
  cbv zeta in Hw. fold w' in Hw.
  apply find_chainInfo_described in Hd as [ci Hci]. rewrite Hci, Hs in Hw.
  destruct Hw as [_ Hw]. simpl in Hw.
  split; [done |]. split.
  - unfold getClient, mbind, M_bind, reads. simpl. rewrite find_chain_active. simpl.
    by rewrite Hw.
  - by rewrite request_sendTransaction_run, Hw.
Qed.

Lemma handshake_without_session_leaves_sending_remote_witness :
  let data := sample_data (Some 10) None [1; 10] in
  let this := sample_signer 1 [10] (answering data) in
  let w' := snd (handshake sample_env this empty_world) in
  delivers sample_env this empty_world data
  ∧ described (handshake_chainsInfo data) (chain_id (chain this w'))
  ∧ fst (getClient this None w') = Throw (Error "Wallet client is not created")
  ∧ fst (request sample_env this (eth_sendTransaction "tx") w')
    = Ret (Some (json_value "remote")).
Proof.
  intros data this w'.
  assert (delivers sample_env this empty_world data) as H
    by (split; [reflexivity | eexists; reflexivity]).
  assert (described (handshake_chainsInfo data)
            (chain_id (chain this (snd (handshake sample_env this empty_world))))) as Hd.
  { apply find_chainInfo_described. vm_compute. eauto. }
  pose proof (handshake_without_session_leaves_sending_remote sample_env this empty_world
                data "tx" H eq_refl Hd) as T.
  cbv zeta in T. destruct T as (_ & T2 & T3).
  split; [exact H |]. split; [exact Hd |]. split; [exact T2 |].
  subst w'. rewrite T3. by vm_compute.
Defined.

(** ** The passkey client *)

(** X21: [createZksyncPasskeyClient] fails exactly when [getAddress]
    rejects the address, with that error.  Otherwise the parameters it
    hands to viem and the smart account carry the address [getAddress]
    returned; the key and the name are never empty: a given, non-empty
    one is kept, and an absent or empty one is replaced by
    "zksync-sso-passkey-wallet" and "ZKsync SSO Passkey Client"; the
    credential key and the contracts of the passkey data are the
    configuration's. *)
Theorem passkey_client_settles_address_key_and_name penv config :
  (∀ e, getAddress penv (config_address config) = Throw e →
     createZksyncPasskeyClient penv config = Throw e)
  ∧ (∀ address, getAddress penv (config_address config) = Ret address →
     ∃ client,
       createZksyncPasskeyClient penv config = Ret client
       ∧ config_address (passkey_parameters client) = address
       ∧ passkey_account_address client = address
       ∧ passkey_key client ≠ ""
       ∧ passkey_name client ≠ ""
       ∧ (∀ key, config_key config = Some key → key ≠ "" → passkey_key client = key)
       ∧ (config_key config = None ∨ config_key config = Some "" →
          passkey_key client = "zksync-sso-passkey-wallet")
       ∧ (∀ name, config_name config = Some name → name ≠ "" → passkey_name client = name)
       ∧ (config_name config = None ∨ config_name config = Some "" →
          passkey_name client = "ZKsync SSO Passkey Client")
       ∧ data_credentialPublicKey (passkey_data client) = config_credentialPublicKey config
       ∧ data_contracts (passkey_data client) = config_contracts config).
Proof.
  unfold createZksyncPasskeyClient. split.
  - by intros e ->.
  - intros address ->. simpl. eexists. split; [done |]. simpl.
    assert (∀ a b, b ≠ "" → js_or_string a b ≠ "") as Hne
      by (intros [[|]|] b; by simpl).
    assert (∀ s b, s ≠ "" → js_or_string (Some s) b = s) as Hkeep
      by (intros [|] b; by simpl).
    repeat split; try done.
    + by apply Hne.
    + by apply Hne.
    + intros key -> ?. by apply Hkeep.
    + by intros [-> | ->].
    + intros name -> ?. by apply Hkeep.
    + by intros [-> | ->].
Qed.
